(** * ChatBot_OpenAI: a shallow embedding of the retrieval pipeline

    The development follows the Python sources:
    - [config/settings.py]      the configuration constants,
    - [src/text_processor.py]   [clean_text], [process_documents],
    - [src/vector_store.py]     [similarity_search], [get_retriever],
    - [src/retriever.py]        the strategy dispatcher, deduplication and
                                metadata filtering,
    - [src/chatbot.py]          [chat].

    Python [str] values are sequences of Unicode code points; they are
    modelled as lists of code points so that [len], [split] and [strip]
    count and classify characters the way the interpreter does. *)

From Stdlib Require Import ZArith NArith List Ascii String DecimalString PrimFloat.
From stdpp Require Import base decidable option list gmap.

Local Open Scope Z_scope.
Local Open Scope list_scope.

(** ** Python strings *)

Module PyStr.

(** A [str] is a list of code points. *)
Abbreviation pystr := (list N).

(** Reading of an ASCII literal as a [str]. *)
Fixpoint str (s : string) : pystr :=
  match s with
  | EmptyString => []
  | String a s' => N_of_ascii a :: str s'
  end.

Definition SP : N := 32%N.

(** [str.isspace] on one code point: the table of CPython's
    [_PyUnicode_IsWhitespace], which [str.split()] and [str.strip()]
    consult when called without arguments. *)
Definition isspace (c : N) : bool :=
  ((9 <=? c) && (c <=? 13) ||
   (28 <=? c) && (c <=? 32) ||
   (c =? 133) || (c =? 160) || (c =? 5760) ||
   (8192 <=? c) && (c <=? 8202) ||
   (c =? 8232) || (c =? 8233) || (c =? 8239) || (c =? 8287) ||
   (c =? 12288))%N.

(** [text.split()]: the words between runs of whitespace; [word] is the
    word being collected. *)
Fixpoint split_go (text word : pystr) : list pystr :=
  match text with
  | [] => match word with [] => [] | _ => [word] end
  | c :: rest =>
      if isspace c
      then match word with
           | [] => split_go rest []
           | _ => word :: split_go rest []
           end
      else split_go rest (word ++ [c])
  end.

Definition split (text : pystr) : list pystr := split_go text [].

(** [sep.join(words)]. *)
Fixpoint join (sep : pystr) (words : list pystr) : pystr :=
  match words with
  | [] => []
  | w :: ws => match ws with
               | [] => w
               | _ => w ++ sep ++ join sep ws
               end
  end.

(** [text.lstrip()], [text.rstrip()], [text.strip()]. *)
Fixpoint lstrip (text : pystr) : pystr :=
  match text with
  | [] => []
  | c :: rest => if isspace c then lstrip rest else text
  end.

Fixpoint rstrip (text : pystr) : pystr :=
  match text with
  | [] => []
  | c :: rest =>
      match rstrip rest with
      | [] => if isspace c then [] else [c]
      | r => c :: r
      end
  end.

Definition strip (text : pystr) : pystr := rstrip (lstrip text).

(** [len(text)]. *)
Definition len (text : pystr) : Z := Z.of_nat (length text).

End PyStr.
Export PyStr.

(** ** src/text_processor.py: [clean_text] *)

Module TextCleaning.

(** [TextProcessor.clean_text]:
    [text = " ".join(text.split()); return text.strip()]. *)
Definition clean_text (text : pystr) : pystr :=
  let text := join (str " ") (split text) in
  strip text.

(** The normalisation as the specification words it: every run of
    whitespace becomes one space ([in_run] tells whether the previous
    character was whitespace), after the ends have been trimmed. *)
Fixpoint collapse_runs (in_run : bool) (text : pystr) : pystr :=
  match text with
  | [] => []
  | c :: rest =>
      if isspace c
      then if in_run then collapse_runs true rest
           else SP :: collapse_runs true rest
      else c :: collapse_runs false rest
  end.

Definition collapse_and_trim (text : pystr) : pystr :=
  collapse_runs false (strip text).

(** A text made of whitespace only. *)
Definition allspace (text : pystr) : bool := forallb isspace text.

(** A text is [normalized] when it neither starts nor ends with
    whitespace and its only whitespace is single spaces. *)
Fixpoint normalized_tail (text : pystr) : bool :=
  match text with
  | [] => true
  | c :: rest =>
      if isspace c
      then (c =? SP)%N
           && match rest with
              | [] => false
              | d :: _ => negb (isspace d)
              end
           && normalized_tail rest
      else normalized_tail rest
  end.

Definition normalized (text : pystr) : bool :=
  match text with
  | [] => true
  | c :: _ => negb (isspace c) && normalized_tail text
  end.

End TextCleaning.

(** ** Python values, documents and exceptions *)

Module Py.

(** Metadata values: the scalars that loaders and the text processor
    store ([None], [bool], [int], [str]). *)
Inductive value : Type :=
| VNone
| VBool (b : bool)
| VInt (n : Z)
| VStr (s : pystr).

(** [a == b]; [bool] is a subclass of [int], so [True == 1]. *)
Definition py_eq (a b : value) : bool :=
  match a, b with
  | VNone, VNone => true
  | VBool x, VBool y => Bool.eqb x y
  | VInt x, VInt y => x =? y
  | VBool x, VInt y | VInt y, VBool x => y =? (if x then 1 else 0)
  | VStr x, VStr y => bool_decide (x = y)
  | _, _ => false
  end.

(** [a != b]. *)
Definition py_ne (a b : value) : bool := negb (py_eq a b).

(** [str(n)] for an [int]. *)
Definition str_of_int (n : Z) : pystr :=
  str (DecimalString.NilZero.string_of_int (Z.to_int n)).

(** langchain's [Document]: text and a metadata [dict]. *)
Record Document : Type := mkDocument {
  page_content : pystr;
  metadata : gmap pystr value
}.

(** Exceptions (instances of [Exception]), by the class that an
    [except] clause tests, with their [str(e)]. *)
Inductive exn_class : Type :=
| ValueError
| KeyError
| AttributeError
| OtherException.

Record exn : Type := mkExn { exn_type : exn_class; exn_str : pystr }.

Inductive outcome (A : Type) : Type :=
| Ok (a : A)
| Raise (e : exn).
Arguments Ok {A} a.
Arguments Raise {A} e.

(** [seq[:n]]: a negative [n] counts from the end. *)
Definition slice_to {A : Type} (l : list A) (n : Z) : list A :=
  if 0 <=? n then take (Z.to_nat n) l
  else take (length l - Z.to_nat (- n))%nat l.

(** The builtin [hash] on [str]: some function into the machine-word
    range ([sys.hash_info.width = 64]); it is seeded per process, so
    nothing else is known about it. *)
Class PyHash : Type := { str_hash : pystr -> Z }.

End Py.
Export Py.

(** ** config/settings.py *)

Module Config.

(** The class attributes of [Settings]. [OPENAI_API_KEY] is read from the
    environment and only handed to the external constructors; it belongs
    to the outside world below. *)
Record Settings : Type := {
  CHAT_MODEL : pystr;
  EMBEDDING_MODEL : pystr;
  VECTOR_STORE_TYPE : pystr;
  CHUNK_SIZE : Z;
  CHUNK_OVERLAP : Z;
  RETRIEVAL_K : Z;
  DATA_DIR : pystr;
  PDF_DIR : pystr;
  PERSIST_DIRECTORY : pystr
}.

Definition settings : Settings := {|
  CHAT_MODEL := str "gpt-3.5-turbo";
  EMBEDDING_MODEL := str "text-embedding-ada-002";
  VECTOR_STORE_TYPE := str "chroma";
  CHUNK_SIZE := 1000;
  CHUNK_OVERLAP := 100;
  RETRIEVAL_K := 4;
  DATA_DIR := str "data/documents";
  PDF_DIR := str "data/documents";
  PERSIST_DIRECTORY := str "data/vectorstore"
|}.

End Config.
Export Config.

(** ** The external collaborators

    The vector index, the retrievers built on it, the language model and
    the conversational chain are library objects. They are handles here;
    what a call on them returns, and what it does to the index files and
    the remote services, is given by the functions of [External] over an
    abstract [World]. *)

Module Collaborators.

(** A Chroma or FAISS index object. *)
Record VectorStore : Type := { vectorstore_id : nat }.

(** An [OpenAIEmbeddings] object. *)
Record Embeddings : Type := { embeddings_id : nat }.

(** An [OpenAI] or [ChatOpenAI] object. *)
Record LLM : Type := { llm_id : nat }.

(** [vector_store.as_retriever(search_kwargs=...)] builds a
    [VectorStoreRetriever] holding the store and the keyword
    arguments. *)
Record VectorStoreRetriever : Type := {
  vectorstore : VectorStore;
  search_kwargs : gmap pystr value
}.

Definition as_retriever (vs : VectorStore) (kwargs : gmap pystr value)
  : VectorStoreRetriever :=
  {| vectorstore := vs; search_kwargs := kwargs |}.

(** [LLMChainExtractor] and [ContextualCompressionRetriever]. *)
Record Compressor : Type := { compressor_llm : LLM }.

Record ContextualCompressionRetriever : Type := {
  base_compressor : Compressor;
  compression_base_retriever : VectorStoreRetriever
}.

(** A [ConversationalRetrievalChain]. *)
Record Chain : Type := {
  chain_llm : LLM;
  chain_retriever : VectorStoreRetriever
}.

(** The messages of a [ConversationBufferMemory]. *)
Inductive Message : Type :=
| HumanMessage (content : pystr)
| AIMessage (content : pystr)
| SystemMessage (content : pystr).

(** The mapping a chain call returns; either key may be missing. *)
Record ChainResponse : Type := {
  response_answer : option pystr;
  response_source_documents : option (list Document)
}.

Class External : Type := {
  World : Type;
  (** [vector_store.similarity_search(query, k=k)] *)
  vs_similarity_search :
    VectorStore -> pystr -> Z -> World -> outcome (list Document) * World;
  (** [vector_store.similarity_search_with_score(query, k=k)] *)
  vs_similarity_search_with_score :
    VectorStore -> pystr -> Z -> World
    -> outcome (list (Document * float)) * World;
  (** [retriever.get_relevant_documents(query)] *)
  vsr_get_relevant_documents :
    VectorStoreRetriever -> pystr -> World -> outcome (list Document) * World;
  (** [compression_retriever.get_relevant_documents(query)] *)
  ccr_get_relevant_documents :
    ContextualCompressionRetriever -> pystr -> World
    -> outcome (list Document) * World;
  (** [OpenAI(openai_api_key=settings.OPENAI_API_KEY, temperature=0)] *)
  new_OpenAI : World -> outcome LLM * World;
  (** [LLMChainExtractor.from_llm(llm)] *)
  extractor_from_llm : LLM -> World -> outcome Compressor * World;
  (** [ContextualCompressionRetriever(base_compressor=..., base_retriever=...)] *)
  new_compression_retriever :
    Compressor -> VectorStoreRetriever -> World
    -> outcome ContextualCompressionRetriever * World;
  (** [ConversationalRetrievalChain.from_llm(llm=..., retriever=..., memory=..., ...)] *)
  chain_from_llm :
    LLM -> VectorStoreRetriever -> World -> outcome Chain * World;
  (** [conversation_chain({"question": message})]: runs retrieval and the
      language model, and writes the turn into the shared memory. *)
  chain_call :
    Chain -> pystr -> list Message -> World
    -> outcome ChainResponse * list Message * World
}.

(** What the process does that can be observed from outside. *)
Inductive Event : Type :=
| EvPrint (line : pystr)
| EvSimilaritySearch (vs : VectorStore) (query : pystr) (k : Z)
| EvSimilaritySearchWithScore (vs : VectorStore) (query : pystr) (k : Z)
| EvGetRelevantDocuments (r : VectorStoreRetriever) (query : pystr)
| EvCompressedDocuments (r : ContextualCompressionRetriever) (query : pystr)
| EvNewOpenAI
| EvExtractorFromLLM (llm : LLM)
| EvNewCompressionRetriever (c : Compressor) (r : VectorStoreRetriever)
| EvChainFromLLM (llm : LLM) (r : VectorStoreRetriever)
| EvChainCall (chain : Chain) (question : pystr).

End Collaborators.
Export Collaborators.

(** ** Computations: state of the world, trace of events, exceptions *)

Module Exec.
Section Exec.
Context `{External}.

Record St : Type := mkSt { world : World; trace : list Event }.

Definition M (A : Type) : Type := St -> outcome A * St.

Definition ret {A} (a : A) : M A := fun s => (Ok a, s).

Definition bind {A B} (m : M A) (f : A -> M B) : M B :=
fun s => match m s with
       | (Ok a, s') => f a s'
       | (Raise e, s') => (Raise e, s')
       end.

Definition raise {A} (e : exn) : M A := fun s => (Raise e, s).

(** [try: body except Exception as e: handler(e)] *)
Definition try_except {A} (body : M A) (handler : exn -> M A) : M A :=
fun s => match body s with
       | (Ok a, s') => (Ok a, s')
       | (Raise e, s') => handler e s'
       end.

(** [try: body except ValueError as e: handler(e)] *)
Definition try_except_ValueError {A} (body : M A) (handler : exn -> M A) : M A :=
fun s => match body s with
       | (Ok a, s') => (Ok a, s')
       | (Raise e, s') =>
           match exn_type e with
           | ValueError => handler e s'
           | _ => (Raise e, s')
           end
       end.

Definition emit (e : Event) : M unit :=
fun s => (Ok tt, {| world := world s; trace := trace s ++ [e] |}).

Definition print (line : pystr) : M unit := emit (EvPrint line).

(** A call on a collaborator: the event is recorded, the world moves. *)
Definition call {A} (e : Event) (f : World -> outcome A * World) : M A :=
fun s => let '(r, w) := f (world s) in
       (r, {| world := w; trace := trace s ++ [e] |}).

End Exec.
End Exec.
Export Exec.

Declare Scope py_scope.
Delimit Scope py_scope with py.
Notation "x <- m ;; k" := (bind m (fun x => k))
  (at level 100, m at next level, right associativity) : py_scope.
Notation "m ;;; k" := (bind m (fun _ => k))
  (at level 100, k at level 200, right associativity) : py_scope.

Local Open Scope py_scope.

(** ** src/vector_store.py *)

Module VectorStoreManager.

(** The attributes of a [VectorStoreManager]; [vector_store] is [None]
    until an index has been loaded or created. *)
Record t : Type := {
  embeddings : Embeddings;
  vector_store : option VectorStore
}.

(** The two states of the manager. *)
Inductive State : Type := Empty | Populated.

Definition state (self : t) : State :=
  match vector_store self with
  | None => Empty
  | Some _ => Populated
  end.

(** [k or settings.RETRIEVAL_K]: [None] and [0] are falsy. *)
Definition k_or_default (k : option Z) : Z :=
  match k with
  | None => RETRIEVAL_K settings
  | Some n => if n =? 0 then RETRIEVAL_K settings else n
  end.

(** [search_kwargs or {"k": settings.RETRIEVAL_K}]: [None] and the empty
    [dict] are falsy. *)
Definition search_kwargs_or_default (search_kwargs : option (gmap pystr value))
  : gmap pystr value :=
  match search_kwargs with
  | None => {[ str "k" := VInt (RETRIEVAL_K settings) ]}
  | Some kw =>
      if decide (kw = ∅) then {[ str "k" := VInt (RETRIEVAL_K settings) ]}
      else kw
  end.

Section Methods.
Context `{External}.

Definition similarity_search (self : t) (query : pystr) (k : option Z)
  : M (list Document) :=
  match vector_store self with
  | None =>
      print (str "Vector store is empty") ;;;
      ret []
  | Some vs =>
      let k := k_or_default k in
      call (EvSimilaritySearch vs query k) (vs_similarity_search vs query k)
  end.

Definition similarity_search_with_score (self : t) (query : pystr) (k : option Z)
  : M (list (Document * float)) :=
  match vector_store self with
  | None =>
      print (str "Vector store is empty") ;;;
      ret []
  | Some vs =>
      let k := k_or_default k in
      call (EvSimilaritySearchWithScore vs query k)
           (vs_similarity_search_with_score vs query k)
  end.

Definition get_retriever (self : t) (search_kwargs : option (gmap pystr value))
  : M VectorStoreRetriever :=
  match vector_store self with
  | None => raise (mkExn ValueError (str "Vector store is empty"))
  | Some vs =>
      let search_kwargs := search_kwargs_or_default search_kwargs in
      ret (as_retriever vs search_kwargs)
  end.

End Methods.

End VectorStoreManager.

(** ** src/retriever.py *)

Module DocumentRetriever.

Record t : Type := {
  vector_store_manager : VectorStoreManager.t;
  base_retriever : option VectorStoreRetriever;
  compression_retriever : option ContextualCompressionRetriever
}.

(** [score_threshold = 0.7]: the binary64 value nearest to 0.7. *)
Definition score_threshold : float := 0x1.6666666666666p-1%float.

(** [[doc for doc, score in scored_docs if score < score_threshold]] *)
Definition filter_by_score (scored_docs : list (Document * float)) : list Document :=
  map fst (List.filter (fun ds => PrimFloat.ltb (snd ds) score_threshold) scored_docs).

(** The loop of [retrieve_with_metadata_filter] over
    [metadata_filter.items()]: [false] is the [break] with
    [match = False]. *)
Fixpoint match_items (items : list (pystr * value)) (md : gmap pystr value) : bool :=
  match items with
  | [] => true
  | (key, value) :: rest =>
      match md !! key with
      | None => false
      | Some found => if py_ne found value then false else match_items rest md
      end
  end.

Fixpoint filter_loop (all_docs : list Document) (metadata_filter : gmap pystr value)
    (filtered_docs : list Document) : list Document :=
  match all_docs with
  | [] => filtered_docs
  | doc :: rest =>
      let matched := match_items (map_to_list metadata_filter) (metadata doc) in
      filter_loop rest metadata_filter
        (if matched then filtered_docs ++ [doc] else filtered_docs)
  end.

(** [get_document_sources]: the distinct [source] values. A Python [set]
    iterates in an unspecified order; the list here is in order of first
    insertion. *)
Fixpoint sources_loop (documents : list Document) (sources : list value) : list value :=
  match documents with
  | [] => sources
  | doc :: rest =>
      match metadata doc !! str "source" with
      | Some v =>
          sources_loop rest
            (if existsb (py_eq v) sources then sources else sources ++ [v])
      | None => sources_loop rest sources
      end
  end.

Definition get_document_sources (documents : list Document) : list value :=
  sources_loop documents [].

Section Dedup.
Context `{PyHash}.

(** [hash(doc.page_content)] *)
Definition content_hash (doc : Document) : Z := str_hash (page_content doc).

(** The loop of [_deduplicate_documents]: [seen_content] is the set of
    hashes met so far, [unique_docs] the documents kept so far. *)
Fixpoint dedup_loop (documents : list Document) (seen_content : gset Z)
    (unique_docs : list Document) : list Document :=
  match documents with
  | [] => unique_docs
  | doc :: rest =>
      let content_hash := str_hash (page_content doc) in
      if decide (content_hash ∈ seen_content)
      then dedup_loop rest seen_content unique_docs
      else dedup_loop rest ({[ content_hash ]} ∪ seen_content) (unique_docs ++ [doc])
  end.

Definition _deduplicate_documents (documents : list Document) : list Document :=
  dedup_loop documents ∅ [].

End Dedup.

(** Deduplication as the specification words it: a document is dropped
    exactly when an earlier one has the same key; [seen] lists the keys
    met so far. The specification takes the content as the key. *)
Fixpoint dedup_by {K : Type} `{EqDecision K} (key : Document -> K)
    (seen : list K) (documents : list Document) : list Document :=
  match documents with
  | [] => []
  | doc :: rest =>
      if bool_decide (key doc ∈ seen)
      then dedup_by key seen rest
      else doc :: dedup_by key (key doc :: seen) rest
  end.



(** A document satisfies a metadata filter when its metadata has every
    key of the filter, with an equal value. *)
Definition satisfies (metadata_filter md : gmap pystr value) : Prop :=
  forall key v, metadata_filter !! key = Some v ->
    exists found, md !! key = Some found /\ py_eq found v = true.

Section Methods.
Context `{External} `{PyHash}.

Definition _similarity_retrieval (self : t) (query : pystr) : M (list Document) :=
  match base_retriever self with
  | Some r => call (EvGetRelevantDocuments r query) (vsr_get_relevant_documents r query)
  | None =>
      raise (mkExn AttributeError
               (str "'NoneType' object has no attribute 'get_relevant_documents'"))
  end.

Definition _compression_retrieval (self : t) (query : pystr) : M (list Document) :=
  match compression_retriever self with
  | None => _similarity_retrieval self query
  | Some c => call (EvCompressedDocuments c query) (ccr_get_relevant_documents c query)
  end.

Definition _hybrid_retrieval (self : t) (query : pystr) : M (list Document) :=
  similarity_docs <- _similarity_retrieval self query ;;
  scored_docs <- VectorStoreManager.similarity_search_with_score
                   (vector_store_manager self) query None ;;
  let filtered_docs := filter_by_score scored_docs in
  let all_docs := similarity_docs ++ filtered_docs in
  let unique_docs := _deduplicate_documents all_docs in
  ret (slice_to unique_docs (RETRIEVAL_K settings)).

(** The body of the [try] block of [retrieve_documents]. *)
Definition dispatch (self : t) (query method : pystr) : M (list Document) :=
  if bool_decide (method = str "similarity") then _similarity_retrieval self query
  else if bool_decide (method = str "compression") then _compression_retrieval self query
  else if bool_decide (method = str "hybrid") then _hybrid_retrieval self query
  else raise (mkExn ValueError (str "Unknown retrieval method: " ++ method)).

Definition retrieve_documents (self : t) (query method : pystr) : M (list Document) :=
  match base_retriever self with
  | None =>
      print (str "No retriever available") ;;;
      ret []
  | Some _ =>
      try_except (dispatch self query method)
        (fun e =>
           print (str "Error during retrieval: " ++ exn_str e) ;;;
           ret [])
  end.

Definition retrieve_with_metadata_filter (self : t) (query : pystr)
    (metadata_filter : gmap pystr value) : M (list Document) :=
  all_docs <- retrieve_documents self query (str "similarity") ;;
  ret (filter_loop all_docs metadata_filter []).

(** The handler of [_setup_retrievers]. *)
Definition setup_warning (self : t) (e : exn) : M t :=
  print (str "Warning: Could not setup retrievers - " ++ exn_str e) ;;;
  ret self.

(** [_setup_retrievers]: one [try] block with two assignments to
    [self]; a [ValueError] raised after the first assignment leaves
    [base_retriever] set, which the inner handler accounts for. *)
Definition _setup_retrievers (self : t) : M t :=
  try_except_ValueError
    (base <- VectorStoreManager.get_retriever (vector_store_manager self) None ;;
     let self := {| vector_store_manager := vector_store_manager self;
                    base_retriever := Some base;
                    compression_retriever := compression_retriever self |} in
     try_except_ValueError
       (llm <- call EvNewOpenAI new_OpenAI ;;
        compressor <- call (EvExtractorFromLLM llm) (extractor_from_llm llm) ;;
        c <- call (EvNewCompressionRetriever compressor base)
                  (new_compression_retriever compressor base) ;;
        ret {| vector_store_manager := vector_store_manager self;
               base_retriever := base_retriever self;
               compression_retriever := Some c |})
       (setup_warning self))
    (setup_warning self).

(** [DocumentRetriever(vector_store_manager)] *)
Definition __init__ (vector_store_manager : VectorStoreManager.t) : M t :=
  _setup_retrievers {| vector_store_manager := vector_store_manager;
                       base_retriever := None;
                       compression_retriever := None |}.

End Methods.

End DocumentRetriever.

(** ** src/chatbot.py *)

Module RAGChatbot.

Record t : Type := {
  llm : LLM;
  vector_store_manager : VectorStoreManager.t;
  retriever : DocumentRetriever.t;
  (** [self.memory.chat_memory.messages]; the chain shares the object. *)
  memory : list Message;
  conversation_chain : option Chain
}.

(** The mapping that [chat] returns. *)
Record ChatResult : Type := {
  answer : pystr;
  source_documents : list Document;
  sources : list value
}.

Definition not_ready_answer : pystr :=
  str "Maaf, sistem belum siap. Pastikan dokumen telah dimuat ke dalam vector store.".

Definition set_memory (self : t) (messages : list Message) : t :=
  {| llm := llm self;
     vector_store_manager := vector_store_manager self;
     retriever := retriever self;
     memory := messages;
     conversation_chain := conversation_chain self |}.

Definition set_conversation_chain (self : t) (chain : option Chain) : t :=
  {| llm := llm self;
     vector_store_manager := vector_store_manager self;
     retriever := retriever self;
     memory := memory self;
     conversation_chain := chain |}.

(** [get_statistics()["conversation_length"]] *)
Definition conversation_length (self : t) : Z :=
  Z.of_nat (length (memory self)).

Section Methods.
Context `{External}.

(** The [except Exception as e] branch of [chat]. *)
Definition chat_error (e : exn) (s : St) : ChatResult * St :=
  ({| answer := str "Maaf, terjadi kesalahan: " ++ exn_str e;
      source_documents := [];
      sources := [] |},
   {| world := world s;
      trace := trace s ++ [EvPrint (str "Error during chat: " ++ exn_str e)] |}).

(** [chat]; the argument [retrieval_method] is not used by the body. *)
Definition chat (self : t) (message retrieval_method : pystr) (s : St)
  : ChatResult * t * St :=
  match conversation_chain self with
  | None =>
      ({| answer := not_ready_answer;
          source_documents := [];
          sources := [] |}, self, s)
  | Some chain =>
      let '(response, messages, w) :=
        chain_call chain message (memory self) (world s) in
      let self := set_memory self messages in
      let s := {| world := w; trace := trace s ++ [EvChainCall chain message] |} in
      match response with
      | Raise e => let '(r, s) := chat_error e s in (r, self, s)
      | Ok response =>
          let sources :=
            match response_source_documents response with
            | Some docs => DocumentRetriever.get_document_sources docs
            | None => []
            end in
          match response_answer response with
          | None =>
              let '(r, s) := chat_error (mkExn KeyError (str "'answer'")) s in
              (r, self, s)
          | Some a =>
              ({| answer := a;
                  source_documents :=
                    match response_source_documents response with
                    | Some docs => docs
                    | None => []
                    end;
                  sources := sources |}, self, s)
          end
      end
  end.

(** [_setup_conversation_chain]: the chain is built only when the
    vector store yields a retriever. *)
Definition _setup_conversation_chain (self : t) : M t :=
  try_except_ValueError
    (base_retriever <- VectorStoreManager.get_retriever (vector_store_manager self) None ;;
     chain <- call (EvChainFromLLM (llm self) base_retriever)
                   (chain_from_llm (llm self) base_retriever) ;;
     ret (set_conversation_chain self (Some chain)))
    (fun e =>
       print (str "Warning: Could not setup conversation chain - " ++ exn_str e) ;;;
       ret self).

End Methods.

End RAGChatbot.

(** ** src/text_processor.py: [process_documents]

    The loop of [process_documents] updates the metadata [dict] of each
    chunk in place, so chunks are objects here: the text, and the
    address of the metadata [dict] in a heap. *)

Module TextProcessor.

Abbreviation loc := nat.

Record DocumentObject : Type := {
  content : pystr;
  metadata_ref : loc
}.

(** [d.update(other)] *)
Definition dict_update (d other : gmap pystr value) : gmap pystr value :=
  other ∪ d.

(** [text_splitter.split_documents(documents)] is library code: it
    returns the chunk objects and the heap in which their metadata
    live. *)
Class TextSplitter : Type := {
  split_documents :
    list DocumentObject -> gmap loc (gmap pystr value)
    -> list DocumentObject * gmap loc (gmap pystr value)
}.

(** [{"chunk_id": i, "chunk_size": len(chunk.page_content)}] *)
Definition chunk_fields (i : Z) (chunk : DocumentObject) : gmap pystr value :=
  <[ str "chunk_id" := VInt i ]>
    (<[ str "chunk_size" := VInt (len (content chunk)) ]> ∅).

(** [for i, chunk in enumerate(chunks): chunk.metadata.update({...})],
    from index [i] on. *)
Fixpoint add_chunk_metadata (i : Z) (chunks : list DocumentObject)
    (heap : gmap loc (gmap pystr value)) : gmap loc (gmap pystr value) :=
  match chunks with
  | [] => heap
  | chunk :: rest =>
      add_chunk_metadata (i + 1) rest
        (alter (fun d => dict_update d (chunk_fields i chunk)) (metadata_ref chunk) heap)
  end.

Section Methods.
Context `{TextSplitter}.

(** [process_documents]: the chunks, the heap after the loop, and the
    two lines printed. *)
Definition process_documents (documents : list DocumentObject)
    (heap : gmap loc (gmap pystr value))
  : list DocumentObject * gmap loc (gmap pystr value) * list pystr :=
  let line1 := str "Processing " ++ str_of_int (Z.of_nat (length documents))
               ++ str " documents..." in
  let '(chunks, heap) := split_documents documents heap in
  let heap := add_chunk_metadata 0 chunks heap in
  let line2 := str "Created " ++ str_of_int (Z.of_nat (length chunks))
               ++ str " chunks" in
  (chunks, heap, [line1; line2]).

End Methods.

(** The metadata of a chunk object in a heap. *)
Definition metadata_of (heap : gmap loc (gmap pystr value)) (chunk : DocumentObject)
  : option (gmap pystr value) :=
  heap !! metadata_ref chunk.

End TextProcessor.

(** ** A small concrete world

    One instance of every interface, on which the definitions above can be
    run: an index that answers every query with the same four chunks. *)

Module Demo.

Definition doc (text source : string) : Document :=
  {| page_content := str text;
     metadata := {[ str "source" := VStr (str source) ]} |}.

Definition doc_a : Document := doc "palm oil price" "a.txt".
Definition doc_b : Document := doc "harvest report" "b.txt".
Definition doc_c : Document := doc "shipping notes" "c.txt".
(** The text of [doc_a], found again in another file. *)
Definition doc_a' : Document := doc "palm oil price" "copy.txt".

(** A toy hash: the code points summed, in the 64-bit range. *)
#[export] Instance demo_hash : PyHash :=
  {| str_hash := fun s => Z.of_N (fold_right N.add 0%N s) mod 2 ^ 63 |}.

(** The world counts the calls made on it. *)
#[export] Instance demo_world : External := {|
  World := nat;
  vs_similarity_search := fun _ _ k w =>
    (Ok (take (Z.to_nat k) [doc_a; doc_b; doc_a'; doc_c]), S w);
  vs_similarity_search_with_score := fun _ _ k w =>
    (Ok (take (Z.to_nat k)
           [(doc_b, 0.25%float); (doc_c, 0.5%float);
            (doc_a', 0.75%float); (doc_a, 1.5%float)]), S w);
  vsr_get_relevant_documents := fun _ _ w => (Ok [doc_a; doc_b; doc_a'], S w);
  ccr_get_relevant_documents := fun _ _ w => (Ok [doc_b], S w);
  new_OpenAI := fun w =>
    (Raise (mkExn ValueError (str "Did not find openai_api_key")), S w);
  extractor_from_llm := fun llm w => (Ok {| compressor_llm := llm |}, S w);
  new_compression_retriever := fun c r w =>
    (Ok {| base_compressor := c; compression_base_retriever := r |}, S w);
  chain_from_llm := fun llm r w =>
    (Ok {| chain_llm := llm; chain_retriever := r |}, S w);
  chain_call := fun _ question messages w =>
    (Ok {| response_answer := Some (str "42");
           response_source_documents := Some [doc_a; doc_b] |},
     messages ++ [HumanMessage question; AIMessage (str "42")], S w)
|}.

Definition s0 : St := {| world := 0%nat; trace := [] |}.

Definition empty_manager : VectorStoreManager.t :=
  {| VectorStoreManager.embeddings := {| embeddings_id := 0 |};
     VectorStoreManager.vector_store := None |}.

Definition populated_manager : VectorStoreManager.t :=
  {| VectorStoreManager.embeddings := {| embeddings_id := 0 |};
     VectorStoreManager.vector_store := Some {| vectorstore_id := 1 |} |}.

Definition demo_base_retriever : VectorStoreRetriever :=
  as_retriever {| vectorstore_id := 1 |} {[ str "k" := VInt 4 ]}.

(** The retriever that [__init__] builds over [populated_manager] in this
    world: the base retriever is there, the compression retriever is
    not. *)
Definition demo_retriever : DocumentRetriever.t :=
  {| DocumentRetriever.vector_store_manager := populated_manager;
     DocumentRetriever.base_retriever := Some demo_base_retriever;
     DocumentRetriever.compression_retriever := None |}.

(** The retriever that [__init__] builds over [empty_manager]. *)
Definition empty_retriever : DocumentRetriever.t :=
  {| DocumentRetriever.vector_store_manager := empty_manager;
     DocumentRetriever.base_retriever := None;
     DocumentRetriever.compression_retriever := None |}.

(** A chatbot over the empty store, with two turns in memory. *)
Definition unready_chatbot : RAGChatbot.t :=
  {| RAGChatbot.llm := {| llm_id := 7 |};
     RAGChatbot.vector_store_manager := empty_manager;
     RAGChatbot.retriever := empty_retriever;
     RAGChatbot.memory := [HumanMessage (str "halo"); AIMessage (str "hai")];
     RAGChatbot.conversation_chain := None |}.

(** A splitter that cuts every document in two halves and gives each
    half its own copy of the document's metadata. *)
Fixpoint halves (documents : list TextProcessor.DocumentObject) (next : nat)
    (heap : gmap nat (gmap pystr value))
  : list TextProcessor.DocumentObject * gmap nat (gmap pystr value) :=
  match documents with
  | [] => ([], heap)
  | d :: rest =>
      let md := default ∅ (heap !! TextProcessor.metadata_ref d) in
      let n := Nat.div2 (length (TextProcessor.content d)) in
      let heap := <[ S next := md ]> (<[ next := md ]> heap) in
      let '(chunks, heap) := halves rest (S (S next)) heap in
      ({| TextProcessor.content := take n (TextProcessor.content d);
          TextProcessor.metadata_ref := next |}
       :: {| TextProcessor.content := drop n (TextProcessor.content d);
             TextProcessor.metadata_ref := S next |}
       :: chunks, heap)
  end.

#[export] Instance demo_splitter : TextProcessor.TextSplitter :=
  {| TextProcessor.split_documents := fun documents heap => halves documents 100 heap |}.

Definition demo_documents : list TextProcessor.DocumentObject :=
  [ {| TextProcessor.content := str "harga cpo naik";
       TextProcessor.metadata_ref := 0%nat |};
    {| TextProcessor.content := str "stok turun";
       TextProcessor.metadata_ref := 1%nat |} ].

Definition demo_heap : gmap nat (gmap pystr value) :=
  {[ 0%nat := {[ str "source" := VStr (str "test1.txt") ]};
     1%nat := {[ str "source" := VStr (str "test2.txt") ]} ]}.

End Demo.

(** ** utils/helpers.py: the pure helpers *)

Module Helpers.

(** [text.startswith(prefix)] *)
Definition startswith (text prefix : pystr) : bool :=
  bool_decide (take (length prefix) text = prefix).

(** [validate_openai_api_key]; [os.getenv] hands over [None] when the
    variable is not set. *)
Definition validate_openai_api_key (api_key : option pystr) : bool :=
  match api_key with
  | None => false
  | Some key =>
      if bool_decide (key = []) then false
      else if negb (startswith key (str "sk-")) then false
      else if len key <? 20 then false
      else true
  end.

(** [count_tokens_approximate]: [len(text) // 4]. *)
Definition count_tokens_approximate (text : pystr) : Z := len text / 4.

(** [truncate_text(text, max_length)] *)
Definition truncate_text (text : pystr) (max_length : Z) : pystr :=
  if len text <=? max_length then text
  else slice_to text max_length ++ str "...".

(** The character class of the first [re.sub] of [clean_filename]:
    less-than, greater-than, colon, double quote, slash, backslash, bar,
    question mark, star. *)
Definition invalid_chars : list N := [60; 62; 58; 34; 47; 92; 124; 63; 42]%N.

Definition UNDERSCORE : N := 95%N.
Definition DOT : N := 46%N.

Definition replace_invalid (filename : pystr) : pystr :=
  map (fun c => if bool_decide (c ∈ invalid_chars) then UNDERSCORE else c) filename.

(** The second [re.sub], of one or more dots by one dot: every maximal
    run of dots becomes one dot; [in_run] tells whether the previous
    character was a dot. *)
Fixpoint collapse_dots (in_run : bool) (filename : pystr) : pystr :=
  match filename with
  | [] => []
  | c :: rest =>
      if (c =? DOT)%N
      then if in_run then collapse_dots true rest
           else DOT :: collapse_dots true rest
      else c :: collapse_dots false rest
  end.

Definition clean_filename (filename : pystr) : pystr :=
  let filename := replace_invalid filename in
  let filename := collapse_dots false filename in
  strip filename.

(** No two dots in a row. *)
Fixpoint no_double_dot (filename : pystr) : bool :=
  match filename with
  | [] => true
  | c :: rest =>
      match rest with
      | [] => true
      | d :: _ => negb ((c =? DOT)%N && (d =? DOT)%N) && no_double_dot rest
      end
  end.

End Helpers.

(** ** src/text_processor.py: [preprocess_document] *)

Module Preprocess.

Definition nonspace (c : N) : bool := negb (isspace c).

(** A word: not empty, no whitespace in it. *)
Definition is_word (word : pystr) : Prop :=
  word <> [] /\ forallb nonspace word = true.

(** [preprocess_document]: the content of the document is replaced by the
    cleaned text; the metadata [dict] is the same object. *)
Definition preprocess_document (document : TextProcessor.DocumentObject)
  : TextProcessor.DocumentObject :=
  let cleaned_content := TextCleaning.clean_text (TextProcessor.content document) in
  {| TextProcessor.content := cleaned_content;
     TextProcessor.metadata_ref := TextProcessor.metadata_ref document |}.

End Preprocess.

(** ** src/retriever.py: [format_retrieved_context] *)

Module ContextFormat.

Definition NL : N := 10%N.

(** [str(v)], as an f-string renders a metadata value. *)
Definition py_str (v : value) : pystr :=
  match v with
  | VNone => str "None"
  | VBool true => str "True"
  | VBool false => str "False"
  | VInt n => str_of_int n
  | VStr s => s
  end.

(** [doc.metadata.get("source", "Unknown")] *)
Definition source_or_unknown (doc : Document) : value :=
  match metadata doc !! str "source" with
  | Some v => v
  | None => VStr (str "Unknown")
  end.

Definition no_context : pystr := str "No relevant context found.".

(** The f-string appended for the document numbered [i]. *)
Definition context_part (i : Z) (doc : Document) : pystr :=
  let source := source_or_unknown doc in
  let content := strip (page_content doc) in
  str "[Document " ++ str_of_int i ++ str " - " ++ py_str source ++ str "]"
  ++ [NL] ++ content ++ [NL].

(** [for i, doc in enumerate(documents, 1)], from number [i] on. *)
Fixpoint context_parts (i : Z) (documents : list Document) : list pystr :=
  match documents with
  | [] => []
  | doc :: rest => context_part i doc :: context_parts (i + 1) rest
  end.

Definition format_retrieved_context (documents : list Document) : pystr :=
  match documents with
  | [] => no_context
  | _ => join [NL] (context_parts 1 documents)
  end.

End ContextFormat.

(** ** src/chatbot.py: the other methods *)

Module ChatbotOps.
Import RAGChatbot.

(** An entry of [get_conversation_history]. *)
Record HistoryEntry : Type := {
  entry_type : pystr;
  entry_content : pystr
}.

(** An entry of [search_documents]. *)
Record SearchResult : Type := {
  result_content : pystr;
  result_source : value;
  result_metadata : gmap pystr value
}.

(** [get_conversation_history]: human and AI messages, in order; other
    messages are passed over. *)
Fixpoint history_loop (messages : list Message) (history : list HistoryEntry)
  : list HistoryEntry :=
  match messages with
  | [] => history
  | message :: rest =>
      match message with
      | HumanMessage c =>
          history_loop rest
            (history ++ [{| entry_type := str "human"; entry_content := c |}])
      | AIMessage c =>
          history_loop rest
            (history ++ [{| entry_type := str "ai"; entry_content := c |}])
      | SystemMessage _ => history_loop rest history
      end
  end.

Definition get_conversation_history (self : t) : list HistoryEntry :=
  history_loop (memory self) [].

(** The content shown for one search result. *)
Definition shown_content (page_content : pystr) : pystr :=
  if 200 <? len page_content
  then slice_to page_content 200 ++ str "..."
  else page_content.

Fixpoint results_loop (documents : list Document) (results : list SearchResult)
  : list SearchResult :=
  match documents with
  | [] => results
  | doc :: rest =>
      results_loop rest
        (results ++ [{| result_content := shown_content (page_content doc);
                        result_source := ContextFormat.source_or_unknown doc;
                        result_metadata := metadata doc |}])
  end.

Section Methods.
Context `{External} `{PyHash}.

(** [clear_memory]: the memory is emptied and a line is printed. *)
Definition clear_memory (self : t) (s : St) : t * St :=
  (set_memory self [],
   {| world := world s;
      trace := trace s ++ [EvPrint (str "Conversation memory cleared")] |}).

(** [get_relevant_context] *)
Definition get_relevant_context (self : t) (query method : pystr) : M pystr :=
  documents <- DocumentRetriever.retrieve_documents (retriever self) query method ;;
  ret (ContextFormat.format_retrieved_context documents).

(** [search_documents(query, k)]; [k] is 5 when not given. *)
Definition search_documents (self : t) (query : pystr) (k : Z)
  : M (list SearchResult) :=
  documents <- VectorStoreManager.similarity_search
                 (vector_store_manager self) query (Some k) ;;
  ret (results_loop documents []).

End Methods.

End ChatbotOps.

(** ** src/vector_store.py: the methods that change the store

    The index library and the file system are further collaborators; their
    calls move the world. A method here runs on the manager object: it can
    assign [self.vector_store], and an exception leaves the assignments
    made so far in place. *)

Module VectorStoreOps.
Import VectorStoreManager.

Class StoreBackend `{External} : Type := {
  (** [Chroma.from_documents(documents=..., embedding=..., persist_directory=...)] *)
  chroma_from_documents : list Document -> World -> outcome VectorStore * World;
  (** [FAISS.from_documents(documents=..., embedding=...)] *)
  faiss_from_documents : list Document -> World -> outcome VectorStore * World;
  (** [vector_store.add_documents(documents)] *)
  store_add_documents : VectorStore -> list Document -> World -> outcome unit * World;
  (** [vector_store.persist()] *)
  store_persist : VectorStore -> World -> outcome unit * World;
  (** [vector_store.save_local(path)] *)
  store_save_local : VectorStore -> pystr -> World -> outcome unit * World;
  (** [vector_store.delete(ids=ids)] *)
  store_delete : VectorStore -> list pystr -> World -> outcome unit * World;
  (** [vector_store.delete_collection()] *)
  store_delete_collection : VectorStore -> World -> outcome unit * World;
  (** [os.path.exists(path)] *)
  os_path_exists : pystr -> World -> bool;
  (** [os.remove(path)] *)
  os_remove : pystr -> World -> outcome unit * World
}.

(** [text.lower()], on the ASCII letters; the configured names are ASCII. *)
Definition lower (text : pystr) : pystr :=
  map (fun c => if ((65 <=? c) && (c <=? 90))%N then (c + 32)%N else c) text.

(** [settings.VECTOR_STORE_TYPE.lower() == "chroma"], [... == "faiss"] *)
Definition is_chroma : bool :=
  bool_decide (lower (VECTOR_STORE_TYPE settings) = str "chroma").

Definition is_faiss : bool :=
  bool_decide (lower (VECTOR_STORE_TYPE settings) = str "faiss").

(** [os.path.join(settings.PERSIST_DIRECTORY, "faiss_index")], with the
    POSIX separator. *)
Definition faiss_path : pystr :=
  PERSIST_DIRECTORY settings ++ str "/" ++ str "faiss_index".

Definition set_vector_store (self : t) (vs : option VectorStore) : t :=
  {| embeddings := embeddings self; vector_store := vs |}.

Section Methods.
Context `{StoreBackend}.

(** A method body: it reads and assigns the attributes of [self]. *)
Definition OM (A : Type) : Type := t -> St -> outcome A * t * St.

Definition oret {A} (a : A) : OM A := fun self s => (Ok a, self, s).

Definition obind {A B} (m : OM A) (f : A -> OM B) : OM B :=
  fun self s =>
    match m self s with
    | (Ok a, self', s') => f a self' s'
    | (Raise e, self', s') => (Raise e, self', s')
    end.

Definition get_self : OM t := fun self s => (Ok self, self, s).

Definition assign_vector_store (vs : option VectorStore) : OM unit :=
  fun self s => (Ok tt, set_vector_store self vs, s).

Definition oprint (line : pystr) : OM unit :=
  fun self s =>
    (Ok tt, self, {| world := world s; trace := trace s ++ [EvPrint line] |}).

(** A call on the index library or the file system. *)
Definition ext {A} (f : World -> outcome A * World) : OM A :=
  fun self s =>
    let '(r, w) := f (world s) in
    (r, self, {| world := w; trace := trace s |}).

Definition then_ {A} (m : OM unit) (k : OM A) : OM A := obind m (fun _ => k).

(** [_save_faiss] *)
Definition _save_faiss : OM unit :=
  obind get_self (fun self =>
    match vector_store self with
    | Some vs => ext (store_save_local vs faiss_path)
    | None =>
        fun self s =>
          (Raise (mkExn AttributeError
                    (str "'NoneType' object has no attribute 'save_local'")), self, s)
    end).

(** The two branches of [add_documents] for a non-empty list. *)
Definition create_store (documents : list Document) : OM unit :=
  if is_chroma then
    obind (ext (chroma_from_documents documents)) (fun vs =>
    then_ (assign_vector_store (Some vs))
          (ext (store_persist vs)))
  else if is_faiss then
    obind (ext (faiss_from_documents documents)) (fun vs =>
    then_ (assign_vector_store (Some vs))
          _save_faiss)
  else oret tt.

Definition extend_store (vs : VectorStore) (documents : list Document) : OM unit :=
  if is_chroma then
    then_ (ext (store_add_documents vs documents)) (ext (store_persist vs))
  else if is_faiss then
    then_ (ext (store_add_documents vs documents)) _save_faiss
  else oret tt.

Definition add_documents (documents : list Document) : OM unit :=
  match documents with
  | [] => oprint (str "No documents to add")
  | _ =>
      then_
        (obind get_self (fun self =>
           match vector_store self with
           | None => create_store documents
           | Some vs => extend_store vs documents
           end))
        (oprint (str "Added " ++ str_of_int (Z.of_nat (length documents))
                 ++ str " documents to vector store"))
  end.

(** [delete_documents(ids)]; [None] and the empty list are falsy. *)
Definition delete_documents (ids : option (list pystr)) : OM unit :=
  obind get_self (fun self =>
    match vector_store self with
    | None => oprint (str "Vector store is empty")
    | Some vs =>
        if is_chroma then
          then_
            match ids with
            | Some (id :: more) => ext (store_delete vs (id :: more))
            | _ => ext (store_delete_collection vs)
            end
            (ext (store_persist vs))
        else oprint (str "Delete operation not implemented for FAISS")
    end).

Definition reset_vector_store : OM unit :=
  then_
    (obind get_self (fun self =>
       if is_chroma then
         match vector_store self with
         | Some vs => ext (store_delete_collection vs)
         | None => oret tt
         end
       else if is_faiss then
         fun self s =>
           if os_path_exists (faiss_path ++ str ".faiss") (world s)
           then then_ (ext (os_remove (faiss_path ++ str ".faiss")))
                      (ext (os_remove (faiss_path ++ str ".pkl"))) self s
           else (Ok tt, self, s)
       else oret tt))
    (then_ (assign_vector_store None)
           (oprint (str "Vector store reset"))).

End Methods.

End VectorStoreOps.

(** ** src/chatbot.py: [add_documents_to_knowledge_base] *)

Module KnowledgeBase.
Import RAGChatbot.

(** The manager object is shared by the chatbot and its retriever: both
    see an assignment to [vector_store]. The retrievers that
    [DocumentRetriever] built at construction are not rebuilt. *)
Definition with_manager (self : t) (manager : VectorStoreManager.t) : t :=
  {| llm := llm self;
     vector_store_manager := manager;
     retriever :=
       {| DocumentRetriever.vector_store_manager := manager;
          DocumentRetriever.base_retriever :=
            DocumentRetriever.base_retriever (retriever self);
          DocumentRetriever.compression_retriever :=
            DocumentRetriever.compression_retriever (retriever self) |};
     memory := memory self;
     conversation_chain := conversation_chain self |}.

(** A chatbot as its constructor leaves it: one manager object. *)
Definition shares_manager (self : t) : Prop :=
  DocumentRetriever.vector_store_manager (retriever self) = vector_store_manager self.

Section Methods.
Context `{VectorStoreOps.StoreBackend}.

Definition add_documents_to_knowledge_base (self : t) (documents : list Document)
    (s : St) : outcome unit * t * St :=
  let '(r, manager, s) :=
    VectorStoreOps.add_documents documents (vector_store_manager self) s in
  let self := with_manager self manager in
  match r with
  | Raise e => (Raise e, self, s)
  | Ok _ =>
      match _setup_conversation_chain self s with
      | (Raise e, s) => (Raise e, self, s)
      | (Ok self, s) =>
          (Ok tt, self,
           {| world := world s;
              trace := trace s ++ [EvPrint (str "Knowledge base updated successfully")] |})
      end
  end.

End Methods.

End KnowledgeBase.

(** ** The concrete world, continued *)

Module DemoStore.
Import Demo.

#[export] Instance demo_backend : VectorStoreOps.StoreBackend := {|
  VectorStoreOps.chroma_from_documents := fun _ w => (Ok {| vectorstore_id := 1 |}, S w);
  VectorStoreOps.faiss_from_documents := fun _ w => (Ok {| vectorstore_id := 2 |}, S w);
  VectorStoreOps.store_add_documents := fun _ _ w => (Ok tt, S w);
  VectorStoreOps.store_persist := fun _ w => (Ok tt, S w);
  VectorStoreOps.store_save_local := fun _ _ w => (Ok tt, S w);
  VectorStoreOps.store_delete := fun _ _ w => (Ok tt, S w);
  VectorStoreOps.store_delete_collection := fun _ w => (Ok tt, S w);
  VectorStoreOps.os_path_exists := fun _ _ => false;
  VectorStoreOps.os_remove := fun _ w => (Ok tt, S w)
|}.

Definition doc_d : Document := doc "export tariff" "d.txt".

(** A world whose retriever answers with four different chunks, as many
    as [settings.RETRIEVAL_K]. *)
Definition full_world : External := {|
  World := nat;
  vs_similarity_search := fun _ _ _ w => (Ok [doc_a; doc_b; doc_c; doc_d], S w);
  vs_similarity_search_with_score := fun _ _ _ w =>
    (Ok [(doc_a', 0.25%float); (doc_d, 0.5%float)], S w);
  vsr_get_relevant_documents := fun _ _ w => (Ok [doc_a; doc_b; doc_c; doc_d], S w);
  ccr_get_relevant_documents := fun _ _ w => (Ok [doc_b], S w);
  new_OpenAI := fun w => (Ok {| llm_id := 9 |}, S w);
  extractor_from_llm := fun llm w => (Ok {| compressor_llm := llm |}, S w);
  new_compression_retriever := fun c r w =>
    (Ok {| base_compressor := c; compression_base_retriever := r |}, S w);
  chain_from_llm := fun llm r w =>
    (Ok {| chain_llm := llm; chain_retriever := r |}, S w);
  chain_call := fun _ _ messages w =>
    (Raise (mkExn OtherException (str "Connection error.")), messages, S w)
|}.

(** A chatbot over the populated store, with its chain. *)
Definition ready_chatbot : RAGChatbot.t :=
  {| RAGChatbot.llm := {| llm_id := 7 |};
     RAGChatbot.vector_store_manager := populated_manager;
     RAGChatbot.retriever := demo_retriever;
     RAGChatbot.memory := [];
     RAGChatbot.conversation_chain :=
       Some {| chain_llm := {| llm_id := 7 |};
               chain_retriever := demo_base_retriever |} |}.

(** A text with ragged whitespace, as an object. *)
Definition ragged_document : TextProcessor.DocumentObject :=
  {| TextProcessor.content := str "  harga   cpo  naik ";
     TextProcessor.metadata_ref := 3%nat |}.

End DemoStore.

(** * Theorems *)

(** ** [clean_text] *)

Module TextCleaningFacts.
Import TextCleaning.

Lemma isspace_SP : isspace SP = true.
Proof. reflexivity. Qed.

Lemma rstrip_nil_iff text : rstrip text = [] <-> allspace text = true.
Proof.
  induction text as [|c rest IH]; simpl; [tauto|].
  destruct (rstrip rest) as [|r rs] eqn:Hr, (isspace c) eqn:Hc; simpl;
    split; intros H; try discriminate; try reflexivity.
  - apply IH; reflexivity.
  - apply IH in H; discriminate.
Qed.

Lemma rstrip_cons_nonspace c rest :
  isspace c = false -> rstrip (c :: rest) = c :: rstrip rest.
Proof. intros Hc; simpl. rewrite Hc. destruct (rstrip rest); reflexivity. Qed.

Lemma rstrip_cons_space c rest :
  isspace c = true ->
  rstrip (c :: rest) = match rstrip rest with [] => [] | r => c :: r end.
Proof. intros Hc; simpl. rewrite Hc. reflexivity. Qed.

Lemma split_go_word_nonnil text c word : split_go text (c :: word) <> [].
Proof.
  revert c word; induction text as [|d rest IH]; intros c word; simpl.
  - discriminate.
  - destruct (isspace d); [discriminate|]. apply IH.
Qed.

Lemma split_nil_iff text : split_go text [] = [] <-> allspace text = true.
Proof.
  induction text as [|c rest IH]; simpl; [tauto|].
  destruct (isspace c); simpl; [exact IH|].
  split; [|discriminate]. intros H. destruct (split_go_word_nonnil _ _ _ H).
Qed.

Lemma allspace_app (l1 l2 : pystr) :
  allspace (l1 ++ l2) = allspace l1 && allspace l2.
Proof. unfold allspace. apply forallb_app. Qed.

Lemma allspace_rev (text : pystr) : allspace (rev text) = allspace text.
Proof.
  induction text as [|d r IH]; [reflexivity|].
  simpl rev. rewrite allspace_app, IH. unfold allspace at 2 3. simpl.
  rewrite andb_true_r. apply andb_comm.
Qed.

Lemma lstrip_snoc (text : pystr) (c : N) :
  lstrip (text ++ [c])
  = if allspace text then (if isspace c then [] else [c]) else lstrip text ++ [c].
Proof.
  induction text as [|d rest IH]; simpl; [destruct (isspace c); reflexivity|].
  destruct (isspace d); simpl; [exact IH|reflexivity].
Qed.

(** [rstrip] is [lstrip] read from the right end. *)
Lemma rstrip_rev (text : pystr) : rstrip text = rev (lstrip (rev text)).
Proof.
  induction text as [|c rest IH]; [reflexivity|].
  simpl rev. rewrite lstrip_snoc.
  rewrite allspace_rev. simpl rstrip. destruct (allspace rest) eqn:Hs.
  - apply rstrip_nil_iff in Hs. rewrite Hs. destruct (isspace c); reflexivity.
  - rewrite rev_app_distr. simpl. rewrite <- IH.
    destruct (rstrip rest) eqn:Hr; [|reflexivity].
    apply rstrip_nil_iff in Hr. congruence.
Qed.

Lemma join_cons sep w ws :
  join sep (w :: ws) = w ++ match ws with [] => [] | _ => sep ++ join sep ws end.
Proof. destruct ws; simpl; [rewrite app_nil_r|]; reflexivity. Qed.

(** The words of [split], joined by single spaces, are the text with its
    whitespace runs collapsed and its trailing whitespace removed. *)
Lemma join_split_go text :
  join [SP] (split_go text []) = collapse_runs true (rstrip text) /\
  (forall c word, join [SP] (split_go text (c :: word))
                  = (c :: word) ++ collapse_runs false (rstrip text)).
Proof.
  induction text as [|d rest [IHa IHb]].
  - split; [reflexivity|]. intros c word; simpl. rewrite app_nil_r; reflexivity.
  - destruct (isspace d) eqn:Hd.
    + rewrite (rstrip_cons_space _ _ Hd). split.
      * simpl split_go. rewrite Hd, IHa.
        destruct (rstrip rest); [reflexivity|]. simpl. rewrite Hd. reflexivity.
      * intros c word. simpl split_go. rewrite Hd, join_cons. f_equal.
        destruct (rstrip rest) as [|r rs] eqn:Hr.
        -- assert (Hn : split_go rest [] = []).
           { apply split_nil_iff, rstrip_nil_iff, Hr. }
           rewrite Hn. reflexivity.
        -- destruct (split_go rest []) as [|w ws] eqn:Hs.
           ++ apply split_nil_iff, rstrip_nil_iff in Hs. congruence.
           ++ rewrite IHa. simpl. rewrite Hd. reflexivity.
    + rewrite (rstrip_cons_nonspace _ _ Hd). split.
      * simpl split_go. rewrite Hd. simpl app. rewrite IHb. simpl.
        rewrite Hd. reflexivity.
      * intros c word. simpl split_go. rewrite Hd.
        change ((c :: word) ++ [d]) with (c :: (word ++ [d])).
        rewrite IHb. simpl. rewrite Hd, <- app_assoc. reflexivity.
Qed.

Lemma collapse_runs_lstrip text :
  collapse_runs true text = collapse_runs false (lstrip text).
Proof.
  induction text as [|c rest IH]; [reflexivity|]. simpl.
  destruct (isspace c) eqn:Hc; [exact IH|]. simpl. rewrite Hc. reflexivity.
Qed.

Lemma lstrip_rstrip text : lstrip (rstrip text) = rstrip (lstrip text).
Proof.
  induction text as [|c rest IH]; [reflexivity|].
  destruct (isspace c) eqn:Hc.
  - rewrite (rstrip_cons_space _ _ Hc). simpl lstrip at 2. rewrite Hc, <- IH.
    destruct (rstrip rest); [reflexivity|]. simpl. rewrite Hc. reflexivity.
  - rewrite (rstrip_cons_nonspace _ _ Hc). simpl. rewrite Hc.
    rewrite (rstrip_cons_nonspace _ _ Hc). reflexivity.
Qed.

Lemma join_split text :
  join [SP] (split text) = collapse_and_trim text.
Proof.
  unfold split, collapse_and_trim, strip.
  rewrite (proj1 (join_split_go text)), collapse_runs_lstrip, lstrip_rstrip.
  reflexivity.
Qed.

Lemma lstrip_head text :
  match lstrip text with [] => True | d :: _ => isspace d = false end.
Proof.
  induction text as [|c rest IH]; simpl; [exact I|].
  destruct (isspace c) eqn:Hc; [exact IH|exact Hc].
Qed.

Lemma collapse_true_rstrip_head text :
  rstrip text <> [] ->
  match collapse_runs true (rstrip text) with
  | [] => False
  | d :: _ => isspace d = false
  end.
Proof.
  induction text as [|c rest IH]; [intros H; apply H; reflexivity|].
  destruct (isspace c) eqn:Hc.
  - rewrite (rstrip_cons_space _ _ Hc).
    destruct (rstrip rest) as [|r rs] eqn:Hr; [intros H; apply H; reflexivity|].
    intros _. simpl collapse_runs. rewrite Hc. apply IH. discriminate.
  - rewrite (rstrip_cons_nonspace _ _ Hc). intros _. simpl. rewrite Hc. exact Hc.
Qed.

Lemma normalized_tail_SP rest :
  normalized_tail (SP :: rest)
  = match rest with [] => false | d :: _ => negb (isspace d) end
    && normalized_tail rest.
Proof. reflexivity. Qed.

Lemma collapse_cons_space b c rest :
  isspace c = true ->
  collapse_runs b (c :: rest)
  = if b then collapse_runs true rest else SP :: collapse_runs true rest.
Proof. intros Hc; simpl. rewrite Hc. reflexivity. Qed.

Lemma collapse_cons_nonspace b c rest :
  isspace c = false ->
  collapse_runs b (c :: rest) = c :: collapse_runs false rest.
Proof. intros Hc; simpl. rewrite Hc. reflexivity. Qed.

Lemma normalized_tail_collapse text :
  normalized_tail (collapse_runs true (rstrip text)) = true /\
  normalized_tail (collapse_runs false (rstrip text)) = true.
Proof.
  induction text as [|c rest [IHt IHf]]; [split; reflexivity|].
  destruct (isspace c) eqn:Hc.
  - rewrite (rstrip_cons_space _ _ Hc).
    assert (Hh := collapse_true_rstrip_head rest).
    destruct (rstrip rest) as [|r rs] eqn:Hr; [split; reflexivity|].
    rewrite !(collapse_cons_space _ _ _ Hc). split; [exact IHt|].
    rewrite normalized_tail_SP, IHt.
    specialize (Hh ltac:(discriminate)).
    destruct (collapse_runs true (r :: rs)); [destruct Hh|].
    rewrite Hh. reflexivity.
  - rewrite (rstrip_cons_nonspace _ _ Hc).
    rewrite !(collapse_cons_nonspace _ _ _ Hc). simpl. rewrite Hc.
    split; exact IHf.
Qed.

Lemma collapse_and_trim_normalized text :
  normalized (collapse_and_trim text) = true.
Proof.
  unfold collapse_and_trim, strip.
  assert (Hh := lstrip_head text). destruct (lstrip text) as [|d y]; [reflexivity|].
  rewrite (rstrip_cons_nonspace _ _ Hh), (collapse_cons_nonspace _ _ _ Hh).
  unfold normalized. rewrite Hh. simpl. rewrite Hh.
  apply normalized_tail_collapse.
Qed.

Lemma normalized_tail_rstrip text :
  normalized_tail text = true -> rstrip text = text.
Proof.
  induction text as [|c rest IH]; [reflexivity|]. simpl.
  destruct (isspace c) eqn:Hc.
  - intros H. apply andb_prop in H as [H Hn]. apply andb_prop in H as [_ Hd].
    rewrite (IH Hn). destruct rest; [discriminate|reflexivity].
  - intros Hn. rewrite (IH Hn). destruct rest; reflexivity.
Qed.

Lemma normalized_tail_collapse_id text :
  normalized_tail text = true -> collapse_runs false text = text.
Proof.
  induction text as [|c rest IH]; [reflexivity|]. simpl.
  destruct (isspace c) eqn:Hc.
  - intros H. apply andb_prop in H as [H Hn]. apply andb_prop in H as [Hs Hd].
    apply N.eqb_eq in Hs. subst c. f_equal.
    destruct rest as [|d rest']; [discriminate|].
    apply negb_true_iff in Hd. rewrite <- (IH Hn) at 2. simpl. rewrite Hd.
    reflexivity.
  - intros Hn. rewrite (IH Hn). reflexivity.
Qed.

Lemma normalized_strip text : normalized text = true -> strip text = text.
Proof.
  unfold normalized, strip. destruct text as [|c rest]; [reflexivity|].
  intros H. apply andb_prop in H as [Hc Hn]. apply negb_true_iff in Hc.
  simpl lstrip. rewrite Hc. apply normalized_tail_rstrip, Hn.
Qed.

Lemma normalized_fixed text : normalized text = true -> clean_text text = text.
Proof.
  intros Hn. unfold clean_text. change (str " ") with [SP].
  rewrite join_split. unfold collapse_and_trim. rewrite (normalized_strip _ Hn).
  assert (Ht : normalized_tail text = true).
  { unfold normalized in Hn. destruct text; [reflexivity|].
    apply andb_prop in Hn as [_ Hn]. exact Hn. }
  rewrite (normalized_tail_collapse_id _ Ht). apply normalized_strip, Hn.
Qed.

Lemma clean_text_refines text : clean_text text = collapse_and_trim text.
Proof.
  unfold clean_text. change (str " ") with [SP]. rewrite join_split.
  apply normalized_strip, collapse_and_trim_normalized.
Qed.

(** C5. For every text, [clean_text] collapses each run of whitespace to
    one space and trims both ends (it agrees with [collapse_and_trim], and
    its result is [normalized]); [clean_text "  a   b  " = "a b"]; and
    [clean_text] is idempotent. *)
Theorem clean_text_collapses_trims_idempotent (text : pystr) :
  clean_text text = collapse_and_trim text /\
  normalized (clean_text text) = true /\
  clean_text (str "  a   b  ") = str "a b" /\
  clean_text (clean_text text) = clean_text text.
Proof.
  split; [apply clean_text_refines|].
  assert (Hn : normalized (clean_text text) = true).
  { rewrite clean_text_refines. apply collapse_and_trim_normalized. }
  split; [exact Hn|]. split; [reflexivity|].
  apply normalized_fixed, Hn.
Qed.

End TextCleaningFacts.

(** ** [VectorStoreManager] *)

Module VectorStoreManagerFacts.
Import VectorStoreManager.

Lemma state_empty_iff (self : t) : state self = Empty <-> vector_store self = None.
Proof. unfold state. destruct (vector_store self); split; congruence. Qed.

Lemma state_populated_iff (self : t) :
  state self = Populated <-> exists vs, vector_store self = Some vs.
Proof.
  unfold state. destruct (vector_store self) as [vs|]; split;
    try congruence; eauto. intros [vs Hvs]; discriminate.
Qed.

Section WithWorld.
Context `{External}.

(** C7. On a manager in the [Empty] state, [similarity_search] returns
    the empty sequence for every query and every [k]; it raises
    nothing, and touches the outside world only by printing one
    line. *)
Theorem similarity_search_empty_store
    (self : t) (query : pystr) (k : option Z) (s : St) :
  state self = Empty ->
  similarity_search self query k s
  = (Ok [], {| world := world s;
               trace := trace s ++ [EvPrint (str "Vector store is empty")] |}).
Proof.
  intros He. apply state_empty_iff in He.
  unfold similarity_search. rewrite He. reflexivity.
Qed.

Lemma search_kwargs_default_k :
  search_kwargs_or_default None !! str "k" = Some (VInt (RETRIEVAL_K settings)).
Proof. unfold search_kwargs_or_default. apply lookup_singleton_eq. Qed.

Lemma search_kwargs_requested_k (kw : gmap pystr value) (k : value) :
  kw !! str "k" = Some k ->
  search_kwargs_or_default (Some kw) !! str "k" = Some k.
Proof.
  intros Hk. unfold search_kwargs_or_default.
  destruct (decide (kw = ∅)) as [->|_]; [|exact Hk].
  rewrite lookup_empty in Hk. discriminate.
Qed.

Lemma search_kwargs_given (kw : gmap pystr value) :
  kw <> ∅ -> search_kwargs_or_default (Some kw) = kw.
Proof.
  intros Hne. unfold search_kwargs_or_default.
  destruct (decide (kw = ∅)); [contradiction|reflexivity].
Qed.

Lemma search_kwargs_empty :
  search_kwargs_or_default (Some ∅) = {[ str "k" := VInt (RETRIEVAL_K settings) ]}.
Proof.
  unfold search_kwargs_or_default. destruct (decide (∅ = ∅)) as [_|Hne];
    [reflexivity|contradiction].
Qed.

(** C8 (amended). [get_retriever] on a manager in the [Empty] state raises
    the [ValueError] "Vector store is empty" and yields no retriever. On a
    populated manager it returns the retriever of the store, bound to the
    keyword arguments given when they are a non-empty [dict], so to the
    requested [k] when the [dict] has one and to no [k] when it has none;
    when the arguments are missing or are the empty [dict] it is bound to
    [k = settings.RETRIEVAL_K] and to nothing else. *)
Theorem get_retriever_empty_or_kwargs
    (self : t) (search_kwargs : option (gmap pystr value)) (s : St) :
  (state self = Empty ->
   get_retriever self search_kwargs s
   = (Raise (mkExn ValueError (str "Vector store is empty")), s)) /\
  (forall vs, vector_store self = Some vs ->
     exists r,
       get_retriever self search_kwargs s = (Ok r, s) /\
       vectorstore r = vs /\
       (search_kwargs = None \/ search_kwargs = Some ∅ ->
        Collaborators.search_kwargs r
        = {[ str "k" := VInt (RETRIEVAL_K settings) ]}) /\
       (forall kw, search_kwargs = Some kw -> kw <> ∅ ->
          Collaborators.search_kwargs r = kw) /\
       (forall kw k, search_kwargs = Some kw -> kw !! str "k" = Some k ->
          Collaborators.search_kwargs r !! str "k" = Some k) /\
       (forall kw, search_kwargs = Some kw -> kw <> ∅ -> kw !! str "k" = None ->
          Collaborators.search_kwargs r !! str "k" = None)).
Proof.
  split.
  - intros He. apply state_empty_iff in He.
    unfold get_retriever. rewrite He. reflexivity.
  - intros vs Hvs. unfold get_retriever. rewrite Hvs.
    eexists. split; [reflexivity|]. split; [reflexivity|]. simpl.
    split; [|split; [|split]].
    + intros [->| ->]; [reflexivity|apply search_kwargs_empty].
    + intros kw -> Hne. apply search_kwargs_given, Hne.
    + intros kw k -> Hk. apply search_kwargs_requested_k, Hk.
    + intros kw -> Hne Hk. rewrite (search_kwargs_given _ Hne). exact Hk.
Qed.

End WithWorld.

Import Demo.

Lemma similarity_search_empty_store_witness :
  state Demo.empty_manager = Empty /\
  similarity_search Demo.empty_manager (str "test query") None Demo.s0
  = (Ok [], @mkSt Demo.demo_world 0%nat [EvPrint (str "Vector store is empty")]).
Proof.
  split; [reflexivity|].
  apply (similarity_search_empty_store Demo.empty_manager (str "test query")
           None Demo.s0).
  reflexivity.
Defined.

Lemma get_retriever_empty_or_kwargs_witness :
  get_retriever Demo.empty_manager None Demo.s0
  = (Raise (mkExn ValueError (str "Vector store is empty")), Demo.s0) /\
  (exists r,
     get_retriever Demo.populated_manager
       (Some {[ str "k" := VInt 2 ]}) Demo.s0 = (Ok r, Demo.s0) /\
     Collaborators.search_kwargs r !! str "k" = Some (VInt 2)) /\
  (exists r,
     get_retriever Demo.populated_manager (Some ∅) Demo.s0 = (Ok r, Demo.s0) /\
     Collaborators.search_kwargs r
     = {[ str "k" := VInt (RETRIEVAL_K settings) ]}).
Proof.
  split; [|split].
  - apply (proj1 (get_retriever_empty_or_kwargs Demo.empty_manager None Demo.s0)).
    reflexivity.
  - destruct (proj2 (get_retriever_empty_or_kwargs Demo.populated_manager
                       (Some {[ str "k" := VInt 2 ]}) Demo.s0)
                {| vectorstore_id := 1 |} eq_refl)
      as (r & Hr & _ & _ & _ & Hk & _).
    exists r. split; [exact Hr|].
    apply (Hk {[ str "k" := VInt 2 ]} (VInt 2) eq_refl).
    reflexivity.
  - destruct (proj2 (get_retriever_empty_or_kwargs Demo.populated_manager
                       (Some ∅) Demo.s0)
                {| vectorstore_id := 1 |} eq_refl)
      as (r & Hr & _ & Hdef & _).
    exists r. split; [exact Hr|]. apply Hdef. right. reflexivity.
Defined.

(** C8 as stated fails: asked for keyword arguments that name no [k], the
    populated manager returns a retriever bound to those arguments as they
    are, so to no [k] at all, and not to [settings.RETRIEVAL_K]. *)
Lemma get_retriever_binds_no_k :
  (exists r,
     get_retriever Demo.populated_manager
       (Some {[ str "fetch_k" := VInt 9 ]}) Demo.s0 = (Ok r, Demo.s0) /\
     Collaborators.search_kwargs r = {[ str "fetch_k" := VInt 9 ]} /\
     Collaborators.search_kwargs r !! str "k" = None) /\
  ~ (exists r,
       get_retriever Demo.populated_manager
         (Some {[ str "fetch_k" := VInt 9 ]}) Demo.s0 = (Ok r, Demo.s0) /\
       Collaborators.search_kwargs r !! str "k"
       = Some (VInt (RETRIEVAL_K settings))).
Proof.
  assert (Hne : ({[ str "fetch_k" := VInt 9 ]} : gmap pystr value) <> ∅)
    by apply map_non_empty_singleton.
  assert (Hk : ({[ str "fetch_k" := VInt 9 ]} : gmap pystr value) !! str "k" = None)
    by (apply lookup_singleton_ne; discriminate).
  assert (Hget : get_retriever Demo.populated_manager
                   (Some {[ str "fetch_k" := VInt 9 ]}) Demo.s0
                 = (Ok (as_retriever {| vectorstore_id := 1 |}
                          {[ str "fetch_k" := VInt 9 ]}), Demo.s0)).
  { unfold get_retriever, Demo.populated_manager.
    cbv beta iota delta [vector_store]. cbv zeta.
    rewrite (search_kwargs_given _ Hne). reflexivity. }
  split.
  - eexists. split; [exact Hget|]. split; [reflexivity|exact Hk].
  - intros (r & Hr & Hbound). rewrite Hget in Hr.
    injection Hr as <-.
    pose proof (eq_trans (eq_sym Hk) Hbound) as Hd. discriminate Hd.
Qed.

End VectorStoreManagerFacts.


(** ** [DocumentRetriever]: the strategy dispatcher *)

Module DispatchFacts.
Import DocumentRetriever.

Section WithWorld.
Context `{External} `{PyHash}.

Lemma bind_ok {A B} (m : M A) (f : A -> M B) (s s1 : St) (a : A) :
  m s = (Ok a, s1) -> bind m f s = f a s1.
Proof. intros Hm. unfold bind. rewrite Hm. reflexivity. Qed.

Lemma bind_raise {A B} (m : M A) (f : A -> M B) (s s1 : St) (e : exn) :
  m s = (Raise e, s1) -> bind m f s = (Raise e, s1).
Proof. intros Hm. unfold bind. rewrite Hm. reflexivity. Qed.

(** Whatever the strategy does, [retrieve_documents] returns a list. *)
Lemma retrieve_documents_returns (self : t) (query method : pystr) (s : St) :
  exists docs s', retrieve_documents self query method s = (Ok docs, s').
Proof.
  unfold retrieve_documents. destruct (base_retriever self) as [r|].
  - unfold try_except.
    destruct (dispatch self query method s) as [[docs|e] s1]; eauto.
  - eauto.
Qed.

(** An exception of the strategy is printed and turned into []. *)
Lemma retrieve_documents_caught (self : t) (query method : pystr) (s s1 : St) (e : exn) :
  base_retriever self <> None ->
  dispatch self query method s = (Raise e, s1) ->
  retrieve_documents self query method s
  = (Ok [], {| world := world s1;
               trace := trace s1 ++ [EvPrint (str "Error during retrieval: " ++ exn_str e)] |}).
Proof.
  intros Hb Hd. unfold retrieve_documents.
  destruct (base_retriever self); [|congruence].
  unfold try_except. rewrite Hd. reflexivity.
Qed.

Lemma dispatch_unknown (self : t) (query method : pystr) (s : St) :
  method <> str "similarity" -> method <> str "compression" -> method <> str "hybrid" ->
  dispatch self query method s
  = (Raise (mkExn ValueError (str "Unknown retrieval method: " ++ method)), s).
Proof.
  intros H1 H2 H3. unfold dispatch.
  rewrite !bool_decide_eq_false_2 by assumption. reflexivity.
Qed.

(** C1 (amended). For every query and every strategy name other than
    "similarity", "compression" and "hybrid": the dispatch raises the
    unknown-method [ValueError] without calling any collaborator;
    [retrieve_documents] itself does not fail: it returns the empty list,
    the world is unchanged and the only event is one printed line, which
    is the caught error when a base retriever is available. No other
    strategy is run in its place. *)
Theorem retrieve_documents_unknown_method (self : t) (query method : pystr) (s : St) :
  method <> str "similarity" -> method <> str "compression" -> method <> str "hybrid" ->
  dispatch self query method s
  = (Raise (mkExn ValueError (str "Unknown retrieval method: " ++ method)), s) /\
  exists line,
    retrieve_documents self query method s
    = (Ok [], {| world := world s; trace := trace s ++ [EvPrint line] |}) /\
    (base_retriever self <> None ->
     line = str "Error during retrieval: Unknown retrieval method: " ++ method) /\
    (base_retriever self = None -> line = str "No retriever available").
Proof.
  intros H1 H2 H3. pose proof (dispatch_unknown self query method s H1 H2 H3) as Hd.
  split; [exact Hd|].
  destruct (base_retriever self) as [r|] eqn:Hb.
  - eexists. split; [|split; [reflexivity|discriminate]].
    assert (Hb' : base_retriever self <> None) by congruence.
    rewrite (retrieve_documents_caught self query method s s _ Hb' Hd).
    reflexivity.
  - eexists. split; [|split; [congruence|reflexivity]].
    unfold retrieve_documents. rewrite Hb. reflexivity.
Qed.

(** C9. When the compression retriever was not set up, the "compression"
    strategy is the "similarity" strategy: same result, same calls, same
    final state, both inside the dispatcher and through
    [retrieve_documents], which returns a list and raises nothing. *)
Theorem compression_falls_back_to_similarity (self : t) (query : pystr) (s : St) :
  compression_retriever self = None ->
  _compression_retrieval self query s = _similarity_retrieval self query s /\
  retrieve_documents self query (str "compression") s
  = retrieve_documents self query (str "similarity") s /\
  exists docs s', retrieve_documents self query (str "compression") s = (Ok docs, s').
Proof.
  intros Hc.
  assert (Hcs : _compression_retrieval self query s = _similarity_retrieval self query s).
  { unfold _compression_retrieval. rewrite Hc. reflexivity. }
  split; [exact Hcs|]. split; [|apply retrieve_documents_returns].
  unfold retrieve_documents. destruct (base_retriever self); [|reflexivity].
  unfold try_except, dispatch. simpl. rewrite Hcs. reflexivity.
Qed.





End WithWorld.

(** *** The dispatcher in the concrete world *)

Import Demo.

Lemma retrieve_documents_unknown_method_witness :
  exists line,
    retrieve_documents Demo.demo_retriever (str "harga cpo") (str "keyword") Demo.s0
    = (Ok [], @mkSt Demo.demo_world 0%nat [EvPrint line]) /\
    line = str "Error during retrieval: Unknown retrieval method: keyword".
Proof.
  destruct (retrieve_documents_unknown_method Demo.demo_retriever
              (str "harga cpo") (str "keyword") Demo.s0)
    as (_ & line & Hr & Hl & _); [discriminate | discriminate | discriminate |].
  exists line. split; [exact Hr|]. apply Hl. discriminate.
Defined.

(** C1 as stated fails: with the base retriever available, the unknown
    strategy name "keyword" makes [retrieve_documents] return the empty
    list; no exception reaches the caller. *)
Lemma unknown_method_is_not_raised :
  retrieve_documents Demo.demo_retriever (str "harga cpo") (str "keyword") Demo.s0
  = (Ok [], @mkSt Demo.demo_world 0%nat
              [EvPrint (str "Error during retrieval: Unknown retrieval method: keyword")]) /\
  ~ (exists e s',
       retrieve_documents Demo.demo_retriever (str "harga cpo") (str "keyword") Demo.s0
       = (Raise e, s')).
Proof.
  split; [vm_compute; reflexivity|].
  intros (e & s' & He). vm_compute in He. discriminate.
Qed.

Lemma compression_falls_back_to_similarity_witness :
  compression_retriever Demo.demo_retriever = None /\
  retrieve_documents Demo.demo_retriever (str "harga cpo") (str "compression") Demo.s0
  = retrieve_documents Demo.demo_retriever (str "harga cpo") (str "similarity") Demo.s0.
Proof.
  split; [reflexivity|].
  apply (compression_falls_back_to_similarity Demo.demo_retriever
           (str "harga cpo") Demo.s0).
  reflexivity.
Defined.


End DispatchFacts.


(** ** [DocumentRetriever]: metadata filter *)

Module MetadataFilterFacts.
Import DocumentRetriever.

Lemma match_items_spec (items : list (pystr * value)) (md : gmap pystr value) :
  match_items items md = true <->
  (forall key v, (key, v) ∈ items ->
     exists found, md !! key = Some found /\ py_eq found v = true).
Proof.
  induction items as [|[k w] rest IH]; simpl.
  - split; [|reflexivity]. intros _ key v Hin. inversion Hin.
  - split.
    + intros Hm key v Hin.
      destruct (md !! k) as [found|] eqn:Hk; [|discriminate].
      unfold py_ne in Hm. destruct (py_eq found w) eqn:Heq; [|discriminate].
      apply elem_of_cons in Hin as [Hhd|Htl].
      * injection Hhd as -> ->. exists found. split; assumption.
      * apply IH; assumption.
    + intros Hall.
      destruct (Hall k w) as (found & Hk & Heq); [left|].
      rewrite Hk. unfold py_ne. rewrite Heq. simpl.
      apply IH. intros key v Hin. apply Hall. right. exact Hin.
Qed.

Lemma match_items_satisfies (metadata_filter md : gmap pystr value) :
  match_items (map_to_list metadata_filter) md = true <-> satisfies metadata_filter md.
Proof.
  rewrite match_items_spec. unfold satisfies.
  split; intros Hs key v Hin; apply Hs; apply elem_of_map_to_list; exact Hin.
Qed.

Lemma filter_loop_spec (all_docs : list Document) (metadata_filter : gmap pystr value)
    (filtered_docs : list Document) :
  filter_loop all_docs metadata_filter filtered_docs
  = filtered_docs
    ++ List.filter (fun doc => match_items (map_to_list metadata_filter) (metadata doc))
         all_docs.
Proof.
  revert filtered_docs. induction all_docs as [|doc rest IH]; intros acc; simpl.
  - rewrite app_nil_r. reflexivity.
  - rewrite IH. destruct (match_items _ _); [|reflexivity].
    rewrite <- app_assoc. reflexivity.
Qed.

Lemma filter_sublist {A} (p : A -> bool) (l : list A) : sublist (List.filter p l) l.
Proof.
  induction l as [|x l IH]; simpl; [constructor|].
  destruct (p x); constructor; exact IH.
Qed.

Lemma filter_all {A} (p : A -> bool) (l : list A) :
  (forall x, p x = true) -> List.filter p l = l.
Proof.
  intros Hp. induction l as [|x l IH]; simpl; [reflexivity|].
  rewrite Hp, IH. reflexivity.
Qed.

Section WithWorld.
Context `{External} `{PyHash}.

(** C10. [retrieve_with_metadata_filter] returns, in their order, exactly
    the documents of [retrieve_documents(query)] whose metadata has every
    key of the filter with an equal value; a document that lacks a key of
    the filter is left out, and the empty filter keeps every document. *)
Theorem retrieve_with_metadata_filter_exact (self : t) (query : pystr)
    (metadata_filter : gmap pystr value) (s : St) :
  exists all_docs filtered s',
    retrieve_documents self query (str "similarity") s = (Ok all_docs, s') /\
    retrieve_with_metadata_filter self query metadata_filter s = (Ok filtered, s') /\
    filtered
    = List.filter (fun doc => match_items (map_to_list metadata_filter) (metadata doc))
        all_docs /\
    (forall doc, match_items (map_to_list metadata_filter) (metadata doc) = true
                 <-> satisfies metadata_filter (metadata doc)) /\
    sublist filtered all_docs /\
    (forall doc, doc ∈ filtered
                 <-> doc ∈ all_docs /\ satisfies metadata_filter (metadata doc)) /\
    (forall doc key, is_Some (metadata_filter !! key) -> metadata doc !! key = None ->
                     doc ∉ filtered) /\
    (metadata_filter = ∅ -> filtered = all_docs).
Proof.
  destruct (DispatchFacts.retrieve_documents_returns self query (str "similarity") s)
    as (all_docs & s' & Hall).
  exists all_docs. eexists. exists s'. split; [exact Hall|]. split.
  { unfold retrieve_with_metadata_filter.
    rewrite (DispatchFacts.bind_ok _ _ _ _ _ Hall). unfold ret.
    rewrite filter_loop_spec. reflexivity. }
  simpl. split; [reflexivity|]. split; [intros doc; apply match_items_satisfies|].
  split; [apply filter_sublist|].
  assert (Hmem : forall doc,
    doc ∈ List.filter (fun doc => match_items (map_to_list metadata_filter) (metadata doc))
            all_docs
    <-> doc ∈ all_docs /\ satisfies metadata_filter (metadata doc)).
  { intros doc. rewrite !list_elem_of_In, filter_In, match_items_satisfies. tauto. }
  split; [exact Hmem|]. split.
  - intros doc key [v Hv] Hnone Hin. apply Hmem in Hin as [_ Hs].
    destruct (Hs key v Hv) as (found & Hf & _). congruence.
  - intros ->. apply filter_all. intros doc. rewrite map_to_list_empty. reflexivity.
Qed.

End WithWorld.

Import Demo.

Lemma retrieve_with_metadata_filter_exact_witness :
  exists s',
    retrieve_with_metadata_filter demo_retriever (str "harga cpo")
      {[ str "source" := VStr (str "b.txt") ]} s0 = (Ok [doc_b], s') /\
    retrieve_with_metadata_filter demo_retriever (str "harga cpo") ∅ s0
    = (Ok [doc_a; doc_b; doc_a'], s').
Proof.
  destruct (retrieve_with_metadata_filter_exact demo_retriever (str "harga cpo")
              {[ str "source" := VStr (str "b.txt") ]} s0)
    as (all1 & f1 & s1 & Hall1 & Hf1 & Heq1 & _).
  destruct (retrieve_with_metadata_filter_exact demo_retriever (str "harga cpo") ∅ s0)
    as (all2 & f2 & s2 & Hall2 & Hf2 & _ & _ & _ & _ & _ & Hempty).
  specialize (Hempty eq_refl).
  assert (Hd : retrieve_documents demo_retriever (str "harga cpo") (str "similarity") s0
               = (Ok [doc_a; doc_b; doc_a'],
                  @mkSt demo_world 1%nat
                    [EvGetRelevantDocuments demo_base_retriever (str "harga cpo")]))
    by reflexivity.
  rewrite Hd in Hall1, Hall2.
  injection Hall1 as <- <-. injection Hall2 as <- <-.
  eexists. split.
  - rewrite Hf1, Heq1. vm_compute. reflexivity.
  - rewrite Hf2, Hempty. reflexivity.
Defined.

End MetadataFilterFacts.


(** ** [DocumentRetriever]: deduplication *)

Module DedupFacts.
Import DocumentRetriever.

Section DedupBy.
Context {K : Type} `{EqDecision K} (key : Document -> K).

Lemma dedup_by_sublist (seen : list K) (documents : list Document) :
  sublist (dedup_by key seen documents) documents.
Proof.
  revert seen. induction documents as [|doc rest IH]; intros seen; simpl.
  - constructor.
  - destruct (bool_decide (key doc ∈ seen)); constructor; apply IH.
Qed.

(** The keys that are kept are new and pairwise different. *)
Lemma dedup_by_keys_fresh (seen : list K) (documents : list Document) (doc : Document) :
  doc ∈ dedup_by key seen documents -> key doc ∉ seen.
Proof.
  revert seen. induction documents as [|d rest IH]; intros seen; simpl.
  - intros Hin. inversion Hin.
  - destruct (bool_decide (key d ∈ seen)) eqn:Hd.
    + apply IH.
    + apply bool_decide_eq_false in Hd. intros Hin.
      apply elem_of_cons in Hin as [->|Hin]; [exact Hd|].
      apply IH in Hin. intros Hs. apply Hin. right. exact Hs.
Qed.

Lemma dedup_by_NoDup (seen : list K) (documents : list Document) :
  NoDup (key <$> dedup_by key seen documents).
Proof.
  revert seen. induction documents as [|d rest IH]; intros seen; simpl.
  - constructor.
  - destruct (bool_decide (key d ∈ seen)); [apply IH|].
    rewrite fmap_cons. constructor; [|apply IH].
    intros Hin. apply list_elem_of_fmap in Hin as (d' & Hk & Hin).
    apply dedup_by_keys_fresh in Hin. apply Hin. rewrite Hk. left.
Qed.





End DedupBy.

Section WithHash.
Context `{PyHash}.

(** The loop with its set of hashes is deduplication by hash. *)
Lemma dedup_loop_spec (documents : list Document) (seen_content : gset Z)
    (seen : list Z) (unique_docs : list Document) :
  (forall h, h ∈ seen_content <-> h ∈ seen) ->
  dedup_loop documents seen_content unique_docs
  = unique_docs ++ dedup_by content_hash seen documents.
Proof.
  revert seen_content seen unique_docs.
  induction documents as [|doc rest IH]; intros sc seen acc Hseen; simpl.
  - rewrite app_nil_r. reflexivity.
  - fold (content_hash doc).
    destruct (decide (content_hash doc ∈ sc)) as [Hin|Hnin].
    + rewrite bool_decide_eq_true_2 by (apply Hseen, Hin). apply IH, Hseen.
    + rewrite bool_decide_eq_false_2 by (intros Hs; apply Hnin, Hseen, Hs).
      rewrite (IH _ (content_hash doc :: seen)), <- app_assoc; [reflexivity|].
      intros h. rewrite elem_of_union, elem_of_singleton, elem_of_cons, Hseen.
      reflexivity.
Qed.

Lemma deduplicate_by_hash (documents : list Document) :
  _deduplicate_documents documents = dedup_by content_hash [] documents.
Proof.
  unfold _deduplicate_documents.
  rewrite (dedup_loop_spec documents ∅ [] []); [reflexivity|].
  intros h. rewrite elem_of_nil. set_solver.
Qed.






End WithHash.

Import Demo.


End DedupFacts.


(** ** [RAGChatbot.chat] *)

Module RAGChatbotFacts.
Import RAGChatbot.

Section WithWorld.
Context `{External}.

(** Over an empty vector store no chain is built. *)
Lemma setup_conversation_chain_empty_store (self : t) (s : St) :
  VectorStoreManager.state (vector_store_manager self) = VectorStoreManager.Empty ->
  _setup_conversation_chain self s
  = (Ok self,
     {| world := world s;
        trace := trace s ++ [EvPrint (str "Warning: Could not setup conversation chain - "
                                      ++ str "Vector store is empty")] |}).
Proof.
  intros He. apply VectorStoreManagerFacts.state_empty_iff in He.
  unfold _setup_conversation_chain, try_except_ValueError, bind,
    VectorStoreManager.get_retriever.
  rewrite He. reflexivity.
Qed.

(** With a chain, [chat] calls it. *)
Lemma chat_ready_calls_chain (self : t) (message retrieval_method : pystr) (s : St)
    (chain : Chain) :
  conversation_chain self = Some chain ->
  EvChainCall chain message ∈ trace (snd (chat self message retrieval_method s)).
Proof.
  intros Hc. unfold chat. rewrite Hc.
  destruct (chain_call chain message (memory self) (world s)) as [[r messages] w].
  destruct r as [response|e]; [destruct (response_answer response)|]; simpl;
    rewrite ?elem_of_app, !list_elem_of_singleton; auto.
Qed.

(** C3. Without a conversation chain, [chat] returns the fixed "system not
    ready" answer with no source documents and no sources; nothing is
    called or printed (the state of the world and the trace are the ones
    before the call, so the language model is not invoked), and the
    chatbot, with its memory and turn count, is unchanged. *)
Theorem chat_not_ready (self : t) (message retrieval_method : pystr) (s : St) :
  conversation_chain self = None ->
  exists result,
    chat self message retrieval_method s = (result, self, s) /\
    answer result = not_ready_answer /\
    source_documents result = [] /\
    sources result = [] /\
    (forall self' s', chat self message retrieval_method s = (result, self', s') ->
       trace s' = trace s /\ world s' = world s /\
       (forall chain question, EvChainCall chain question ∈ trace s' ->
                               EvChainCall chain question ∈ trace s) /\
       memory self' = memory self /\
       conversation_length self' = conversation_length self).
Proof.
  intros Hc. unfold chat. rewrite Hc. eexists. split; [reflexivity|].
  do 3 (split; [reflexivity|]).
  intros self' s' Heq. injection Heq as <- <-.
  repeat split; try reflexivity. intros chain question Hin. exact Hin.
Qed.

End WithWorld.

Import Demo.

Lemma chat_not_ready_witness :
  conversation_chain unready_chatbot = None /\
  exists result,
    chat unready_chatbot (str "Test message") (str "similarity") s0
    = (result, unready_chatbot, s0) /\
    answer result = not_ready_answer /\
    conversation_length unready_chatbot = 2.
Proof.
  split; [reflexivity|].
  destruct (chat_not_ready unready_chatbot (str "Test message") (str "similarity") s0
              eq_refl) as (result & Hr & Ha & _).
  exists result. split; [exact Hr|]. split; [exact Ha|reflexivity].
Defined.

End RAGChatbotFacts.


(** ** [TextProcessor.process_documents] *)

Module TextProcessorFacts.
Import TextProcessor.

Lemma chunk_id_ne_chunk_size : str "chunk_id" <> str "chunk_size".
Proof. discriminate. Qed.

Lemma chunk_fields_id (i : Z) (chunk : DocumentObject) :
  chunk_fields i chunk !! str "chunk_id" = Some (VInt i).
Proof. unfold chunk_fields. apply lookup_insert_eq. Qed.

Lemma chunk_fields_size (i : Z) (chunk : DocumentObject) :
  chunk_fields i chunk !! str "chunk_size" = Some (VInt (len (content chunk))).
Proof.
  unfold chunk_fields.
  rewrite lookup_insert_ne by exact chunk_id_ne_chunk_size.
  apply lookup_insert_eq.
Qed.

Lemma chunk_fields_other (i : Z) (chunk : DocumentObject) (key : pystr) :
  key <> str "chunk_id" -> key <> str "chunk_size" ->
  chunk_fields i chunk !! key = None.
Proof.
  intros H1 H2. unfold chunk_fields.
  rewrite !lookup_insert_ne by congruence. apply lookup_empty.
Qed.

(** What [update] leaves in the [dict] of a chunk. *)
Lemma dict_update_chunk_fields (d : gmap pystr value) (i : Z) (chunk : DocumentObject) :
  dict_update d (chunk_fields i chunk) !! str "chunk_id" = Some (VInt i) /\
  dict_update d (chunk_fields i chunk) !! str "chunk_size"
  = Some (VInt (len (content chunk))) /\
  (forall key, key <> str "chunk_id" -> key <> str "chunk_size" ->
     dict_update d (chunk_fields i chunk) !! key = d !! key).
Proof.
  unfold dict_update. split; [|split].
  - apply lookup_union_Some_l, chunk_fields_id.
  - apply lookup_union_Some_l, chunk_fields_size.
  - intros key H1 H2. apply lookup_union_r, chunk_fields_other; assumption.
Qed.

(** The loop does not touch the dictionaries of other objects. *)
Lemma add_chunk_metadata_other (i : Z) (chunks : list DocumentObject)
    (heap : gmap loc (gmap pystr value)) (l : loc) :
  l ∉ metadata_ref <$> chunks ->
  add_chunk_metadata i chunks heap !! l = heap !! l.
Proof.
  revert i heap. induction chunks as [|c rest IH]; intros i heap Hl; [reflexivity|].
  simpl. rewrite fmap_cons in Hl. apply not_elem_of_cons in Hl as [Hne Hl].
  rewrite (IH _ _ Hl). apply lookup_alter_ne. congruence.
Qed.

(** The chunk at position [j] is updated once, with index [i + j]. *)
Lemma add_chunk_metadata_at (i : Z) (chunks : list DocumentObject)
    (heap : gmap loc (gmap pystr value)) (j : nat) (chunk : DocumentObject) :
  NoDup (metadata_ref <$> chunks) ->
  chunks !! j = Some chunk ->
  add_chunk_metadata i chunks heap !! metadata_ref chunk
  = (fun d => dict_update d (chunk_fields (i + Z.of_nat j) chunk))
      <$> heap !! metadata_ref chunk.
Proof.
  revert i heap j. induction chunks as [|c rest IH]; intros i heap j Hnd Hj.
  - destruct j; discriminate.
  - rewrite fmap_cons in Hnd. apply NoDup_cons in Hnd as [Hc Hnd].
    destruct j as [|j]; simpl in Hj.
    + injection Hj as ->. simpl.
      rewrite (add_chunk_metadata_other _ _ _ _ Hc), lookup_alter_eq.
      replace (i + Z.of_nat 0) with i by lia. reflexivity.
    + simpl. rewrite (IH (i + 1) _ j Hnd Hj).
      assert (Hne : metadata_ref c <> metadata_ref chunk).
      { intros Heq. apply Hc. rewrite Heq. apply list_elem_of_fmap.
        exists chunk. split; [reflexivity|]. apply list_elem_of_lookup. eauto. }
      rewrite (lookup_alter_ne _ _ _ _ Hne).
      replace (i + 1 + Z.of_nat j) with (i + Z.of_nat (S j)) by lia. reflexivity.
Qed.

Section WithSplitter.
Context `{TextSplitter}.

(** C6. Let the splitter return [chunks], each with a metadata [dict] of
    its own. [process_documents] returns these chunks, and afterwards the
    metadata of the chunk at position [i] of the whole sequence has
    [chunk_id = i] (from zero, across documents) and [chunk_size] equal to
    the number of characters of its content; every other key is as the
    splitter left it, that is, as inherited from the source document. *)
Theorem process_documents_chunk_metadata
    (documents chunks : list DocumentObject) (heap heap0 : gmap loc (gmap pystr value)) :
  split_documents documents heap = (chunks, heap0) ->
  NoDup (metadata_ref <$> chunks) ->
  Forall (fun chunk => is_Some (heap0 !! metadata_ref chunk)) chunks ->
  exists heap1 out,
    process_documents documents heap = (chunks, heap1, out) /\
    forall i chunk, chunks !! i = Some chunk ->
      exists inherited md,
        metadata_of heap0 chunk = Some inherited /\
        metadata_of heap1 chunk = Some md /\
        md !! str "chunk_id" = Some (VInt (Z.of_nat i)) /\
        md !! str "chunk_size" = Some (VInt (len (content chunk))) /\
        (forall key, key <> str "chunk_id" -> key <> str "chunk_size" ->
           md !! key = inherited !! key).
Proof.
  intros Hsplit Hnd Halloc. unfold process_documents. rewrite Hsplit.
  eexists _, _. split; [reflexivity|].
  intros i chunk Hi.
  assert (Hin : chunk ∈ chunks) by (apply list_elem_of_lookup; eauto).
  rewrite Forall_forall in Halloc. destruct (Halloc chunk Hin) as [inherited Hinh].
  exists inherited, (dict_update inherited (chunk_fields (Z.of_nat i) chunk)).
  split; [exact Hinh|]. split.
  - unfold metadata_of. rewrite (add_chunk_metadata_at 0 chunks heap0 i chunk Hnd Hi).
    rewrite Hinh. reflexivity.
  - apply dict_update_chunk_fields.
Qed.

End WithSplitter.

Import Demo.

(** Two chunks that share one [dict]: the second update overwrites the
    first, and the chunk at position 0 reads [chunk_id = 1]. *)
Example shared_metadata_is_overwritten :
  let c0 := {| content := str "ab"; metadata_ref := 5%nat |} in
  let c1 := {| content := str "cde"; metadata_ref := 5%nat |} in
  metadata_of (add_chunk_metadata 0 [c0; c1] {[ 5%nat := ∅ ]}) c0
  ≫= (fun md => md !! str "chunk_id") = Some (VInt 1).
Proof. vm_compute. reflexivity. Qed.

Lemma process_documents_chunk_metadata_witness :
  exists chunks heap1 out,
    process_documents demo_documents demo_heap = (chunks, heap1, out) /\
    length chunks = 4%nat /\
    forall i chunk, chunks !! i = Some chunk ->
      exists md,
        metadata_of heap1 chunk = Some md /\
        md !! str "chunk_id" = Some (VInt (Z.of_nat i)) /\
        md !! str "chunk_size" = Some (VInt (len (content chunk))).
Proof.
  pose (chunks := fst (halves demo_documents 100 demo_heap)).
  pose (heap0 := snd (halves demo_documents 100 demo_heap)).
  destruct (process_documents_chunk_metadata demo_documents chunks demo_heap heap0)
    as (heap1 & out & Hp & Hmd).
  - reflexivity.
  - refine (bool_decide_unpack _ _). vm_compute. exact I.
  - refine (bool_decide_unpack _ _). vm_compute. exact I.
  - exists chunks, heap1, out. split; [exact Hp|]. split; [reflexivity|].
    intros i chunk Hi. destruct (Hmd i chunk Hi) as (inh & md & _ & Hm & Hid & Hsz & _).
    exists md. auto.
Defined.

End TextProcessorFacts.


(** * Further properties of the code *)

(** ** [clean_text] and [preprocess_document] *)

Module CleanTextMore.
Import TextCleaning TextCleaningFacts Preprocess.

Lemma split_go_cons_space (c : N) (rest word : pystr) :
  isspace c = true ->
  split_go (c :: rest) word
  = match word with [] => split_go rest [] | _ => word :: split_go rest [] end.
Proof. intros Hc. simpl. rewrite Hc. reflexivity. Qed.

Lemma split_go_lstrip (text : pystr) : split_go (lstrip text) [] = split_go text [].
Proof.
  induction text as [|c rest IH]; [reflexivity|]. simpl.
  destruct (isspace c) eqn:Hc; [exact IH|]. simpl. rewrite Hc. reflexivity.
Qed.

Lemma split_go_rstrip (text word : pystr) :
  split_go (rstrip text) word = split_go text word.
Proof.
  revert word. induction text as [|c rest IH]; intros word; [reflexivity|].
  destruct (isspace c) eqn:Hc.
  - rewrite (rstrip_cons_space _ _ Hc), (split_go_cons_space c rest word Hc).
    destruct (rstrip rest) as [|r rs] eqn:Hr.
    + assert (Hn : split_go rest [] = []) by (apply split_nil_iff, rstrip_nil_iff, Hr).
      rewrite Hn. destruct word; reflexivity.
    + rewrite (split_go_cons_space c (r :: rs) word Hc), IH. reflexivity.
  - rewrite (rstrip_cons_nonspace _ _ Hc). simpl. rewrite Hc. apply IH.
Qed.

Lemma split_go_collapse (text : pystr) :
  split_go (collapse_runs true text) [] = split_go text [] /\
  (forall word, split_go (collapse_runs false text) word = split_go text word).
Proof.
  induction text as [|c rest [IHt IHf]]; [split; reflexivity|].
  destruct (isspace c) eqn:Hc.
  - rewrite !(collapse_cons_space _ _ _ Hc). split.
    + simpl. rewrite Hc. exact IHt.
    + intros word. simpl. rewrite Hc, IHt. reflexivity.
  - rewrite !(collapse_cons_nonspace _ _ _ Hc). split.
    + simpl. rewrite Hc. apply IHf.
    + intros word. simpl. rewrite Hc. apply IHf.
Qed.

Lemma nonspace_of_space (c : N) : isspace c = true -> nonspace c = false.
Proof. unfold nonspace. intros ->. reflexivity. Qed.

Lemma nonspace_of_nonspace (c : N) : isspace c = false -> nonspace c = true.
Proof. unfold nonspace. intros ->. reflexivity. Qed.

Lemma split_go_words (text word : pystr) :
  forallb nonspace word = true -> Forall is_word (split_go text word).
Proof.
  revert word. induction text as [|c rest IH]; intros word Hw; simpl.
  - destruct word as [|d word]; constructor; [|constructor].
    split; [discriminate|exact Hw].
  - destruct (isspace c) eqn:Hc.
    + destruct word as [|d word]; [apply IH; reflexivity|].
      constructor; [split; [discriminate|exact Hw]|apply IH; reflexivity].
    + apply IH. rewrite forallb_app, Hw. simpl.
      rewrite (nonspace_of_nonspace _ Hc). reflexivity.
Qed.

Lemma clean_text_join_split (text : pystr) : clean_text text = join [SP] (split text).
Proof. rewrite clean_text_refines, join_split. reflexivity. Qed.

(** X1. Cleaning keeps the words: the cleaned text is the words of the
    input, each non-empty and free of whitespace, joined by single
    spaces, and splitting it again gives the same words. *)
Theorem clean_text_preserves_words (text : pystr) :
  split (clean_text text) = split text /\
  clean_text text = join [SP] (split text) /\
  Forall is_word (split text).
Proof.
  split; [|split; [apply clean_text_join_split|apply split_go_words; reflexivity]].
  rewrite clean_text_refines. unfold split, collapse_and_trim, strip.
  rewrite (proj2 (split_go_collapse _)), split_go_rstrip, split_go_lstrip.
  reflexivity.
Qed.

Lemma length_lstrip (text : pystr) : (length (lstrip text) <= length text)%nat.
Proof.
  induction text as [|c rest IH]; simpl; [lia|]. destruct (isspace c); simpl; lia.
Qed.

Lemma length_rstrip (text : pystr) : (length (rstrip text) <= length text)%nat.
Proof.
  induction text as [|c rest IH]; simpl; [lia|].
  destruct (rstrip rest); [destruct (isspace c)|]; simpl in *; lia.
Qed.

Lemma length_collapse_runs (b : bool) (text : pystr) :
  (length (collapse_runs b text) <= length text)%nat.
Proof.
  revert b. induction text as [|c rest IH]; intros b; simpl; [lia|].
  destruct (isspace c); [destruct b|]; simpl;
    [specialize (IH true)|specialize (IH true)|specialize (IH false)]; lia.
Qed.

Lemma filter_lstrip (text : pystr) :
  List.filter nonspace (lstrip text) = List.filter nonspace text.
Proof.
  induction text as [|c rest IH]; [reflexivity|]. simpl.
  destruct (isspace c) eqn:Hc.
  - rewrite (nonspace_of_space _ Hc). exact IH.
  - reflexivity.
Qed.

Lemma filter_rstrip (text : pystr) :
  List.filter nonspace (rstrip text) = List.filter nonspace text.
Proof.
  induction text as [|c rest IH]; [reflexivity|].
  destruct (isspace c) eqn:Hc.
  - rewrite (rstrip_cons_space _ _ Hc). simpl List.filter at 2.
    rewrite (nonspace_of_space _ Hc), <- IH.
    destruct (rstrip rest); [reflexivity|].
    simpl. rewrite (nonspace_of_space _ Hc). reflexivity.
  - rewrite (rstrip_cons_nonspace _ _ Hc). simpl. rewrite IH. reflexivity.
Qed.

Lemma filter_collapse_runs (b : bool) (text : pystr) :
  List.filter nonspace (collapse_runs b text) = List.filter nonspace text.
Proof.
  revert b. induction text as [|c rest IH]; intros b; [reflexivity|].
  destruct (isspace c) eqn:Hc.
  - rewrite (collapse_cons_space _ _ _ Hc). simpl List.filter at 2.
    rewrite (nonspace_of_space _ Hc).
    destruct b; [apply IH|]. simpl. apply IH.
  - rewrite (collapse_cons_nonspace _ _ _ Hc). simpl. rewrite IH. reflexivity.
Qed.

Lemma filter_nonspace_nil (text : pystr) :
  List.filter nonspace text = [] <-> allspace text = true.
Proof.
  induction text as [|c rest IH]; simpl; [tauto|].
  destruct (isspace c) eqn:Hc.
  - rewrite (nonspace_of_space _ Hc). exact IH.
  - rewrite (nonspace_of_nonspace _ Hc). split; discriminate.
Qed.

(** X2. Cleaning keeps the non-whitespace characters, in their order, and
    never makes the text longer; the result is empty exactly when the
    input is made of whitespace only. *)
Theorem clean_text_keeps_characters (text : pystr) :
  List.filter nonspace (clean_text text) = List.filter nonspace text /\
  (length (clean_text text) <= length text)%nat /\
  (clean_text text = [] <-> allspace text = true).
Proof.
  assert (Hf : List.filter nonspace (clean_text text) = List.filter nonspace text).
  { rewrite clean_text_refines. unfold collapse_and_trim, strip.
    rewrite filter_collapse_runs, filter_rstrip, filter_lstrip. reflexivity. }
  split; [exact Hf|]. split.
  - rewrite clean_text_refines. unfold collapse_and_trim, strip.
    pose proof (length_collapse_runs false (rstrip (lstrip text))).
    pose proof (length_rstrip (lstrip text)). pose proof (length_lstrip text). lia.
  - split.
    + intros He. apply filter_nonspace_nil. rewrite <- Hf, He. reflexivity.
    + intros Ha. apply filter_nonspace_nil in Ha.
      assert (Hn := collapse_and_trim_normalized text).
      rewrite <- clean_text_refines in Hn. rewrite <- Hf in Ha.
      destruct (clean_text text) as [|c rest]; [reflexivity|].
      simpl in Hn. apply andb_prop in Hn as [Hc _].
      apply negb_true_iff in Hc. simpl in Ha.
      rewrite (nonspace_of_nonspace _ Hc) in Ha. discriminate.
Qed.

(** X3. [preprocess_document] keeps the metadata object, leaves a content
    that is normalized and has the words of the original, and doing it
    twice changes nothing more. *)
Theorem preprocess_document_idempotent (document : TextProcessor.DocumentObject) :
  let cleaned := Preprocess.preprocess_document document in
  TextProcessor.metadata_ref cleaned = TextProcessor.metadata_ref document /\
  normalized (TextProcessor.content cleaned) = true /\
  split (TextProcessor.content cleaned) = split (TextProcessor.content document) /\
  Preprocess.preprocess_document cleaned = cleaned.
Proof.
  simpl. split; [reflexivity|].
  assert (Hn : normalized (clean_text (TextProcessor.content document)) = true).
  { rewrite clean_text_refines. apply collapse_and_trim_normalized. }
  split; [exact Hn|]. split.
  - rewrite clean_text_refines. unfold split, collapse_and_trim, strip.
    rewrite (proj2 (split_go_collapse _)), split_go_rstrip, split_go_lstrip.
    reflexivity.
  - unfold Preprocess.preprocess_document. simpl.
    rewrite (normalized_fixed _ Hn). reflexivity.
Qed.

End CleanTextMore.


(** ** utils/helpers.py *)

Module HelpersFacts.
Import Helpers TextCleaningFacts.

Lemma len_app (a b : pystr) : len (a ++ b) = len a + len b.
Proof. unfold len. rewrite length_app. lia. Qed.

(** X4. For a non-negative [max_length], [truncate_text] returns a text of
    at most [max_length + 3] characters: the text itself when it is short
    enough, otherwise its first [max_length] characters followed by three
    dots. *)
Theorem truncate_text_bounded (text : pystr) (max_length : Z) :
  0 <= max_length ->
  len (truncate_text text max_length) <= max_length + 3 /\
  (len text <= max_length -> truncate_text text max_length = text) /\
  (max_length < len text ->
   truncate_text text max_length = take (Z.to_nat max_length) text ++ str "..." /\
   len (truncate_text text max_length) = max_length + 3).
Proof.
  intros Hm. unfold truncate_text.
  destruct (len text <=? max_length) eqn:Hle.
  - apply Z.leb_le in Hle. split; [lia|]. split; [reflexivity|lia].
  - apply Z.leb_gt in Hle.
    assert (Hs : slice_to text max_length = take (Z.to_nat max_length) text).
    { unfold slice_to. apply Z.leb_le in Hm. rewrite Hm. reflexivity. }
    assert (Hl : len (take (Z.to_nat max_length) text ++ str "...") = max_length + 3).
    { rewrite len_app. unfold len in *. rewrite length_take. simpl. lia. }
    rewrite Hs. split; [lia|]. split; [lia|]. intros _. split; [reflexivity|exact Hl].
Qed.

Lemma truncate_text_bounded_witness :
  truncate_text (str "harga cpo naik") 5 = str "harga..." /\
  truncate_text (str "cpo") 5 = str "cpo".
Proof.
  destruct (truncate_text_bounded (str "harga cpo naik") 5 ltac:(lia))
    as (_ & _ & Hlong).
  destruct (truncate_text_bounded (str "cpo") 5 ltac:(lia)) as (_ & Hshort & _).
  split.
  - apply Hlong. vm_compute. reflexivity.
  - apply Hshort. vm_compute. discriminate.
Defined.

Lemma startswith_spec (text prefix : pystr) :
  startswith text prefix = true <-> exists rest, text = prefix ++ rest.
Proof.
  unfold startswith. rewrite bool_decide_eq_true. split.
  - intros Ht. exists (drop (length prefix) text).
    rewrite <- Ht at 1. symmetry. apply take_drop.
  - intros [rest ->]. rewrite take_app_length. reflexivity.
Qed.

(** X5. [validate_openai_api_key] accepts exactly the keys that start with
    "sk-" and have at least 20 characters; an unset key is rejected. *)
Theorem validate_openai_api_key_exact (api_key : option pystr) :
  validate_openai_api_key api_key = true <->
  exists rest, api_key = Some (str "sk-" ++ rest) /\ 17 <= len rest.
Proof.
  unfold validate_openai_api_key. destruct api_key as [key|].
  - destruct (bool_decide (key = [])) eqn:He.
    + apply bool_decide_eq_true in He. subst key. split; [discriminate|].
      intros (rest & Hk & _). discriminate.
    + destruct (startswith key (str "sk-")) eqn:Hs; simpl.
      * apply startswith_spec in Hs as [rest ->].
        destruct (len (str "sk-" ++ rest) <? 20) eqn:Hl.
        -- apply Z.ltb_lt in Hl. split; [discriminate|].
           intros (rest' & Hk & Hlen). injection Hk as <-.
           rewrite len_app in Hl. change (len (str "sk-")) with 3 in Hl. lia.
        -- apply Z.ltb_ge in Hl. split; [|reflexivity]. intros _. exists rest.
           split; [reflexivity|].
           rewrite len_app in Hl. change (len (str "sk-")) with 3 in Hl. lia.
      * split; [discriminate|]. intros (rest & Hk & _).
        assert (Ht : startswith key (str "sk-") = true).
        { apply startswith_spec. exists rest. injection Hk as ->. reflexivity. }
        rewrite Ht in Hs. discriminate.
  - split; [discriminate|]. intros (rest & Hk & _). discriminate.
Qed.

Lemma replace_invalid_valid (filename : pystr) :
  Forall (fun c => c ∉ invalid_chars) (replace_invalid filename).
Proof.
  unfold replace_invalid. induction filename as [|c rest IH]; simpl; constructor;
    [|exact IH].
  destruct (bool_decide (c ∈ invalid_chars)) eqn:Hc.
  - unfold invalid_chars, UNDERSCORE. intros Hin.
    repeat (apply elem_of_cons in Hin as [Hin|Hin]; [discriminate|]).
    inversion Hin.
  - apply bool_decide_eq_false in Hc. exact Hc.
Qed.

Lemma replace_invalid_fixed (filename : pystr) :
  Forall (fun c => c ∉ invalid_chars) filename -> replace_invalid filename = filename.
Proof.
  unfold replace_invalid. induction 1 as [|c rest Hc Hrest IH]; simpl; [reflexivity|].
  rewrite IH, bool_decide_eq_false_2 by exact Hc. reflexivity.
Qed.

Lemma dot_valid : DOT ∉ invalid_chars.
Proof.
  unfold invalid_chars, DOT. intros Hin.
  repeat (apply elem_of_cons in Hin as [Hin|Hin]; [discriminate|]).
  inversion Hin.
Qed.

Lemma collapse_dots_valid (b : bool) (filename : pystr) :
  Forall (fun c => c ∉ invalid_chars) filename ->
  Forall (fun c => c ∉ invalid_chars) (collapse_dots b filename).
Proof.
  intros Hv. revert b. induction Hv as [|c rest Hc Hrest IH]; intros b; simpl;
    [constructor|].
  destruct (c =? DOT)%N; [destruct b|]; try constructor; auto using dot_valid.
Qed.

Lemma lstrip_suffix (text : pystr) : exists prefix, text = prefix ++ lstrip text.
Proof.
  induction text as [|c rest [prefix IH]]; [exists []; reflexivity|]. simpl.
  destruct (isspace c).
  - exists (c :: prefix). simpl. rewrite <- IH. reflexivity.
  - exists []. reflexivity.
Qed.

Lemma rstrip_prefix (text : pystr) : exists suffix, text = rstrip text ++ suffix.
Proof.
  induction text as [|c rest [suffix IH]]; [exists []; reflexivity|]. simpl.
  destruct (rstrip rest) as [|r rs] eqn:Hr.
  - destruct (isspace c).
    + exists (c :: rest). reflexivity.
    + exists rest. reflexivity.
  - exists suffix. simpl. rewrite IH at 1. reflexivity.
Qed.

Lemma strip_infix (text : pystr) :
  exists prefix suffix, text = prefix ++ strip text ++ suffix.
Proof.
  destruct (lstrip_suffix text) as [prefix Hp].
  destruct (rstrip_prefix (lstrip text)) as [suffix Hs].
  exists prefix, suffix. unfold strip. rewrite <- Hs. exact Hp.
Qed.

Lemma no_double_dot_cons (c d : N) (rest : pystr) :
  no_double_dot (c :: d :: rest)
  = negb ((c =? DOT)%N && (d =? DOT)%N) && no_double_dot (d :: rest).
Proof. reflexivity. Qed.

Lemma no_double_dot_app_l (a b : pystr) :
  no_double_dot (a ++ b) = true -> no_double_dot a = true.
Proof.
  induction a as [|c a IH]; [reflexivity|].
  destruct a as [|d a]; [reflexivity|].
  change ((c :: d :: a) ++ b) with (c :: d :: (a ++ b)).
  rewrite !no_double_dot_cons. intros H. apply andb_prop in H as [H1 H2].
  rewrite H1. apply IH. exact H2.
Qed.

Lemma no_double_dot_app_r (a b : pystr) :
  no_double_dot (a ++ b) = true -> no_double_dot b = true.
Proof.
  induction a as [|c a IH]; [auto|].
  intros H. apply IH. simpl app in H.
  destruct (a ++ b) as [|d x] eqn:Hx; [reflexivity|].
  rewrite no_double_dot_cons in H. apply andb_prop in H as [_ H]. exact H.
Qed.

Lemma collapse_dots_no_double (filename : pystr) :
  (match collapse_dots true filename with
   | [] => True
   | d :: _ => d <> DOT
   end /\ no_double_dot (collapse_dots true filename) = true) /\
  no_double_dot (collapse_dots false filename) = true.
Proof.
  induction filename as [|c rest [[IHh IHt] IHf]]; [repeat split|].
  simpl. destruct (c =? DOT)%N eqn:Hc.
  - split; [split; assumption|].
    destruct (collapse_dots true rest) as [|d x] eqn:Hx; [reflexivity|].
    rewrite no_double_dot_cons, IHt.
    apply N.eqb_neq in IHh. rewrite IHh, andb_false_r. reflexivity.
  - apply N.eqb_neq in Hc. split; [split; [exact Hc|]|].
    + destruct (collapse_dots false rest) as [|d x] eqn:Hx; [reflexivity|].
      rewrite no_double_dot_cons, IHf. apply N.eqb_neq in Hc. rewrite Hc. reflexivity.
    + destruct (collapse_dots false rest) as [|d x] eqn:Hx; [reflexivity|].
      rewrite no_double_dot_cons, IHf. apply N.eqb_neq in Hc. rewrite Hc. reflexivity.
Qed.

Lemma collapse_dots_fixed (filename : pystr) :
  no_double_dot filename = true ->
  collapse_dots false filename = filename /\
  (match filename with [] => True | d :: _ => d <> DOT end ->
   collapse_dots true filename = filename).
Proof.
  induction filename as [|c rest IH]; [split; reflexivity|].
  intros Hn.
  assert (Hrest : no_double_dot rest = true).
  { destruct rest as [|d x]; [reflexivity|].
    rewrite no_double_dot_cons in Hn. apply andb_prop in Hn as [_ Hn]. exact Hn. }
  destruct (IH Hrest) as [IHf IHt]. simpl.
  destruct (c =? DOT)%N eqn:Hc.
  - apply N.eqb_eq in Hc. subst c. split.
    + f_equal. apply IHt. destruct rest as [|d x]; [exact I|].
      rewrite no_double_dot_cons in Hn. apply andb_prop in Hn as [Hn _].
      rewrite N.eqb_refl in Hn. simpl in Hn. apply negb_true_iff, N.eqb_neq in Hn.
      exact Hn.
    + intros Hd. congruence.
  - rewrite IHf. split; reflexivity.
Qed.

Lemma lstrip_idempotent (text : pystr) : lstrip (lstrip text) = lstrip text.
Proof.
  pose proof (lstrip_head text) as Hh.
  destruct (lstrip text) as [|d x]; [reflexivity|]. simpl. rewrite Hh. reflexivity.
Qed.

Lemma rstrip_idempotent (text : pystr) : rstrip (rstrip text) = rstrip text.
Proof.
  rewrite (rstrip_rev (rstrip text)), (rstrip_rev text), rev_involutive,
    lstrip_idempotent. reflexivity.
Qed.

Lemma strip_idempotent (text : pystr) : strip (strip text) = strip text.
Proof.
  unfold strip. rewrite lstrip_rstrip, lstrip_idempotent, rstrip_idempotent.
  reflexivity.
Qed.

(** X6. The result of [clean_filename] has none of the nine characters
    that the function replaces ([invalid_chars]), has no two dots in a
    row, and is a fixed point of [clean_filename]. *)
Theorem clean_filename_clean (filename : pystr) :
  Forall (fun c => c ∉ invalid_chars) (clean_filename filename) /\
  no_double_dot (clean_filename filename) = true /\
  clean_filename (clean_filename filename) = clean_filename filename.
Proof.
  unfold clean_filename at 1 2.
  set (collapsed := collapse_dots false (replace_invalid filename)).
  destruct (strip_infix collapsed) as (prefix & suffix & Hi).
  assert (Hvc : Forall (fun c => c ∉ invalid_chars) collapsed)
    by apply collapse_dots_valid, replace_invalid_valid.
  assert (Hnc : no_double_dot collapsed = true) by apply collapse_dots_no_double.
  assert (Hv : Forall (fun c => c ∉ invalid_chars) (strip collapsed)).
  { rewrite Hi in Hvc. apply Forall_app in Hvc as [_ Hvc].
    apply Forall_app in Hvc as [Hvc _]. exact Hvc. }
  assert (Hn : no_double_dot (strip collapsed) = true).
  { rewrite Hi in Hnc. apply no_double_dot_app_r, no_double_dot_app_l in Hnc.
    exact Hnc. }
  split; [exact Hv|]. split; [exact Hn|].
  fold collapsed. unfold clean_filename. fold collapsed.
  rewrite (replace_invalid_fixed _ Hv), (proj1 (collapse_dots_fixed _ Hn)).
  apply strip_idempotent.
Qed.

End HelpersFacts.


(** ** [DocumentRetriever]: further properties *)

Module RetrieverMore.
Import DocumentRetriever DispatchFacts DedupFacts MetadataFilterFacts.

Lemma py_eq_sym (a b : value) : py_eq a b = py_eq b a.
Proof.
  destruct a as [|x|x|x], b as [|y|y|y]; simpl; try reflexivity.
  - destruct x, y; reflexivity.
  - apply Z.eqb_sym.
  - apply bool_decide_ext. split; congruence.
Qed.

Lemma sources_loop_cons (doc : Document) (rest : list Document) (sources : list value) :
  sources_loop (doc :: rest) sources
  = match metadata doc !! str "source" with
    | Some v =>
        sources_loop rest
          (if existsb (py_eq v) sources then sources else sources ++ [v])
    | None => sources_loop rest sources
    end.
Proof. reflexivity. Qed.

(** What the loop of [get_document_sources] keeps true of [sources]. *)
Lemma sources_loop_spec (documents : list Document) (sources : list value) :
  (forall v, v ∈ sources_loop documents sources ->
     v ∈ sources \/
     exists doc, doc ∈ documents /\ metadata doc !! str "source" = Some v) /\
  (forall v, v ∈ sources -> v ∈ sources_loop documents sources) /\
  (forall doc v, doc ∈ documents -> metadata doc !! str "source" = Some v ->
     exists v', v' ∈ sources_loop documents sources /\ py_eq v v' = true) /\
  ((forall i j v w, (i < j)%nat -> sources !! i = Some v -> sources !! j = Some w ->
      py_eq w v = false) ->
   forall i j v w, (i < j)%nat ->
     sources_loop documents sources !! i = Some v ->
     sources_loop documents sources !! j = Some w ->
     py_eq w v = false).
Proof.
  revert sources. induction documents as [|doc rest IH]; intros sources.
  - simpl. repeat split; auto. intros doc v Hin. inversion Hin.
  - rewrite (sources_loop_cons doc rest sources).
    destruct (metadata doc !! str "source") as [v0|] eqn:Hsrc.
    + set (sources' := if existsb (py_eq v0) sources then sources else sources ++ [v0]).
      destruct (IH sources') as (IH1 & IH2 & IH3 & IH4).
      assert (Hsub : forall v, v ∈ sources -> v ∈ sources').
      { intros v Hv. unfold sources'. destruct (existsb (py_eq v0) sources);
          [exact Hv|]. apply elem_of_app. left. exact Hv. }
      assert (Hnew : forall v, v ∈ sources' -> v ∈ sources \/ v = v0).
      { intros v Hv. unfold sources' in Hv. destruct (existsb (py_eq v0) sources);
          [left; exact Hv|].
        apply elem_of_app in Hv as [Hv|Hv]; [left; exact Hv|].
        right. apply list_elem_of_singleton in Hv. exact Hv. }
      assert (Hrep : exists v', v' ∈ sources' /\ py_eq v0 v' = true).
      { unfold sources'. destruct (existsb (py_eq v0) sources) eqn:Hex.
        - apply existsb_exists in Hex as (x & Hx & Hxe). exists x.
          split; [apply list_elem_of_In, Hx|exact Hxe].
        - exists v0. split; [apply elem_of_app; right; left|].
          destruct v0 as [|x|x|x]; simpl;
            [reflexivity|destruct x; reflexivity|apply Z.eqb_refl|
             apply bool_decide_eq_true_2; reflexivity]. }
      repeat split.
      * intros v Hv. destruct (IH1 v Hv) as [Hs|(d & Hd & Hm)].
        -- destruct (Hnew v Hs) as [Hs'| ->]; [left; exact Hs'|].
           right. exists doc. split; [left|exact Hsrc].
        -- right. exists d. split; [right; exact Hd|exact Hm].
      * intros v Hv. apply IH2, Hsub, Hv.
      * intros d v Hd Hm. apply elem_of_cons in Hd as [->|Hd].
        -- rewrite Hsrc in Hm. injection Hm as <-.
           destruct Hrep as (v' & Hv' & He). exists v'. split; [apply IH2, Hv'|exact He].
        -- apply (IH3 d v Hd Hm).
      * intros Hdist. apply IH4. unfold sources'.
        destruct (existsb (py_eq v0) sources) eqn:Hex; [exact Hdist|].
        intros i j v w Hij Hi Hj.
        destruct (decide (j < length sources)%nat) as [Hlt|Hge].
        -- rewrite lookup_app_l in Hi, Hj by lia. apply (Hdist i j); assumption.
        -- pose proof (lookup_lt_Some _ _ _ Hj) as Hjl.
           rewrite length_app in Hjl. simpl in Hjl.
           rewrite lookup_app_l in Hi by lia.
           rewrite lookup_app_r in Hj by lia.
           destruct (j - length sources)%nat; [|discriminate].
           injection Hj as <-.
           destruct (py_eq v0 v) eqn:He; [|reflexivity].
           assert (Hex' : existsb (py_eq v0) sources = true).
           { apply existsb_exists. exists v. split; [|exact He].
             apply list_elem_of_In, list_elem_of_lookup. eauto. }
           congruence.
    + destruct (IH sources) as (IH1 & IH2 & IH3 & IH4). repeat split.
      * intros v Hv. destruct (IH1 v Hv) as [Hs|(d & Hd & Hm)]; [left; exact Hs|].
        right. exists d. split; [right; exact Hd|exact Hm].
      * exact IH2.
      * intros d v Hd Hm. apply elem_of_cons in Hd as [->|Hd]; [congruence|].
        apply (IH3 d v Hd Hm).
      * exact IH4.
Qed.

(** X7. [get_document_sources] returns the [source] values of the
    documents as a set: every value returned is the source of some
    document, every source is represented by an equal value, and no two
    values returned are equal. *)
Theorem get_document_sources_distinct (documents : list Document) :
  (forall v, v ∈ get_document_sources documents ->
     exists doc, doc ∈ documents /\ metadata doc !! str "source" = Some v) /\
  (forall doc v, doc ∈ documents -> metadata doc !! str "source" = Some v ->
     exists v', v' ∈ get_document_sources documents /\ py_eq v v' = true) /\
  (forall i j v w, i <> j ->
     get_document_sources documents !! i = Some v ->
     get_document_sources documents !! j = Some w ->
     py_eq v w = false).
Proof.
  unfold get_document_sources.
  destruct (sources_loop_spec documents []) as (H1 & _ & H3 & H4).
  split; [|split].
  - intros v Hv. destruct (H1 v Hv) as [Hn|Hd]; [inversion Hn|exact Hd].
  - exact H3.
  - assert (Hd : forall i j v w, (i < j)%nat ->
      sources_loop documents [] !! i = Some v ->
      sources_loop documents [] !! j = Some w -> py_eq w v = false).
    { apply H4. intros i j v w _ Hi. discriminate. }
    intros i j v w Hij Hi Hj.
    destruct (decide (i < j)%nat) as [Hlt|Hge].
    + rewrite py_eq_sym. apply (Hd i j); assumption.
    + apply (Hd j i); [lia|assumption|assumption].
Qed.

Section DedupMore.
Context `{PyHash}.

Lemma dedup_by_fixed {K : Type} `{EqDecision K} (key : Document -> K)
    (seen : list K) (documents : list Document) :
  NoDup (key <$> documents) ->
  (forall doc, doc ∈ documents -> key doc ∉ seen) ->
  dedup_by key seen documents = documents.
Proof.
  revert seen. induction documents as [|d rest IH]; intros seen Hnd Hseen;
    [reflexivity|].
  simpl. rewrite fmap_cons in Hnd. apply NoDup_cons in Hnd as [Hd Hnd].
  rewrite bool_decide_eq_false_2 by (apply Hseen; left).
  f_equal. apply IH; [exact Hnd|].
  intros doc Hin Hk. apply elem_of_cons in Hk as [Hk|Hk].
  - apply Hd. rewrite <- Hk. apply list_elem_of_fmap. eauto.
  - apply (Hseen doc); [right; exact Hin|exact Hk].
Qed.

Lemma dedup_by_app_prefix {K : Type} `{EqDecision K} (key : Document -> K)
    (seen : list K) (a b : list Document) :
  exists rest, dedup_by key seen (a ++ b) = dedup_by key seen a ++ rest.
Proof.
  revert seen. induction a as [|d a IH]; intros seen; simpl.
  - eexists. reflexivity.
  - destruct (bool_decide (key d ∈ seen)); [apply IH|].
    destruct (IH (key d :: seen)) as [rest Hr]. exists rest. rewrite Hr. reflexivity.
Qed.

(** X8. Deduplicating twice is deduplicating once; the result is never
    longer than the input, and a list whose contents have pairwise
    different hashes is returned as it is. *)
Theorem deduplicate_documents_idempotent (documents : list Document) :
  _deduplicate_documents (_deduplicate_documents documents)
  = _deduplicate_documents documents /\
  (length (_deduplicate_documents documents) <= length documents)%nat /\
  (NoDup (content_hash <$> documents) -> _deduplicate_documents documents = documents).
Proof.
  rewrite !deduplicate_by_hash. split; [|split].
  - apply dedup_by_fixed; [apply dedup_by_NoDup|].
    intros doc _ Hin. inversion Hin.
  - apply sublist_length, dedup_by_sublist.
  - intros Hnd. apply dedup_by_fixed; [exact Hnd|]. intros doc _ Hin. inversion Hin.
Qed.

End DedupMore.

Section WithWorld.
Context `{External} `{PyHash}.

(** X9. In hybrid retrieval the similarity results come first: the result
    is a prefix of the deduplicated similarity results followed by
    further documents, and when the deduplicated similarity results
    already number [RETRIEVAL_K] the scored results have no effect. *)
Theorem hybrid_prefers_similarity (self : t) (query : pystr) (s s1 s2 : St)
    (similarity_docs : list Document) (scored_docs : list (Document * float)) :
  _similarity_retrieval self query s = (Ok similarity_docs, s1) ->
  VectorStoreManager.similarity_search_with_score
    (vector_store_manager self) query None s1 = (Ok scored_docs, s2) ->
  (exists rest,
     _hybrid_retrieval self query s
     = (Ok (take (Z.to_nat (RETRIEVAL_K settings))
              (_deduplicate_documents similarity_docs ++ rest)), s2)) /\
  (Z.to_nat (RETRIEVAL_K settings) <= length (_deduplicate_documents similarity_docs)
   -> _hybrid_retrieval self query s
      = (Ok (take (Z.to_nat (RETRIEVAL_K settings))
               (_deduplicate_documents similarity_docs)), s2))%nat.
Proof.
  intros Hsim Hscored.
  assert (Hh : _hybrid_retrieval self query s
               = (Ok (take (Z.to_nat (RETRIEVAL_K settings))
                        (_deduplicate_documents
                           (similarity_docs ++ filter_by_score scored_docs))), s2)).
  { unfold _hybrid_retrieval.
    rewrite (bind_ok _ _ _ _ _ Hsim), (bind_ok _ _ _ _ _ Hscored). reflexivity. }
  rewrite Hh, !deduplicate_by_hash.
  destruct (dedup_by_app_prefix content_hash [] similarity_docs
              (filter_by_score scored_docs)) as [rest Hr].
  rewrite Hr. split; [exists rest; reflexivity|].
  intros Hk. rewrite take_app_le by exact Hk. reflexivity.
Qed.

(** X10. [retrieve_documents] never raises. With a base retriever, the
    documents of the strategy are passed on unchanged, and an exception of
    the strategy becomes the empty list and one printed line carrying the
    message of the exception. *)
Theorem retrieve_documents_catches (self : t) (query method : pystr) (s : St) :
  (exists docs s', retrieve_documents self query method s = (Ok docs, s')) /\
  (forall docs s1, base_retriever self <> None ->
     dispatch self query method s = (Ok docs, s1) ->
     retrieve_documents self query method s = (Ok docs, s1)) /\
  (forall e s1, base_retriever self <> None ->
     dispatch self query method s = (Raise e, s1) ->
     retrieve_documents self query method s
     = (Ok [], {| world := world s1;
                  trace := trace s1
                           ++ [EvPrint (str "Error during retrieval: " ++ exn_str e)] |})).
Proof.
  split; [apply retrieve_documents_returns|]. split.
  - intros docs s1 Hb Hd. unfold retrieve_documents.
    destruct (base_retriever self); [|congruence].
    unfold try_except. rewrite Hd. reflexivity.
  - intros e s1 Hb Hd. apply retrieve_documents_caught; assumption.
Qed.

(** X11. A [DocumentRetriever] constructed over an empty store has neither
    retriever; the constructor prints a warning and calls nothing, and
    every later [retrieve_documents], whatever the query and the method,
    returns the empty list without calling a collaborator. *)
Theorem init_on_empty_store (manager : VectorStoreManager.t) (s : St) :
  VectorStoreManager.state manager = VectorStoreManager.Empty ->
  exists self,
    __init__ manager s
    = (Ok self,
       {| world := world s;
          trace := trace s
                   ++ [EvPrint (str "Warning: Could not setup retrievers - "
                                ++ str "Vector store is empty")] |}) /\
    base_retriever self = None /\
    compression_retriever self = None /\
    forall query method s2,
      retrieve_documents self query method s2
      = (Ok [], {| world := world s2;
                   trace := trace s2 ++ [EvPrint (str "No retriever available")] |}).
Proof.
  intros He. apply VectorStoreManagerFacts.state_empty_iff in He.
  eexists. split.
  - unfold __init__, _setup_retrievers, try_except_ValueError, bind,
      VectorStoreManager.get_retriever. simpl. rewrite He. reflexivity.
  - simpl. repeat split.
Qed.

(** One outcome of the constructor, against the three parts of X12. *)
Ltac init_case :=
  split;
  [ intros self s' Heq;
    first [ discriminate Heq | injection Heq as <- <-; split; reflexivity ]
  | split;
    [ intros e s' Heq;
      first [ discriminate Heq | injection Heq as <- <-; congruence ]
    | intros e w Hw Hv;
      first [ discriminate Hw
            | injection Hw as <- <-;
              first [ congruence | eexists; split; reflexivity ] ] ] ].

(** X12. On a populated store the constructor always installs the base
    retriever of that store with [k = RETRIEVAL_K]; it fails only with an
    exception that is not a [ValueError]; and when building the language
    model raises a [ValueError], the constructor still succeeds, with the
    base retriever and without compression retriever. *)
Theorem init_on_populated_store (manager : VectorStoreManager.t) (vs : VectorStore)
    (s : St) :
  VectorStoreManager.vector_store manager = Some vs ->
  let base := as_retriever vs {[ str "k" := VInt (RETRIEVAL_K settings) ]} in
  (forall self s', __init__ manager s = (Ok self, s') ->
     base_retriever self = Some base /\ vector_store_manager self = manager) /\
  (forall e s', __init__ manager s = (Raise e, s') -> exn_type e <> ValueError) /\
  (forall e w, new_OpenAI (world s) = (Raise e, w) -> exn_type e = ValueError ->
     exists s',
       __init__ manager s
       = (Ok {| vector_store_manager := manager;
                base_retriever := Some base;
                compression_retriever := None |}, s') /\
       world s' = w).
Proof.
  intros Hvs base.
  unfold __init__, _setup_retrievers, try_except_ValueError, bind,
    VectorStoreManager.get_retriever, setup_warning, call, print, emit, ret.
  simpl. rewrite Hvs. simpl.
  destruct (new_OpenAI (world s)) as [[llm|e1] w1] eqn:Hllm; simpl.
  - destruct (extractor_from_llm llm w1) as [[c|e2] w2]; simpl.
    + destruct (new_compression_retriever c _ w2) as [[ccr|e3] w3]; simpl.
      * init_case.
      * destruct (exn_type e3) eqn:He3; simpl; rewrite ?He3; simpl; init_case.
    + destruct (exn_type e2) eqn:He2; simpl; rewrite ?He2; simpl; init_case.
  - destruct (exn_type e1) eqn:He1; simpl; rewrite ?He1; simpl; init_case.
Qed.

Lemma filter_implied_sublist {A} (p q : A -> bool) (l : list A) :
  (forall x, q x = true -> p x = true) ->
  sublist (List.filter q l) (List.filter p l).
Proof.
  intros Hpq. induction l as [|x l IH]; simpl; [constructor|].
  destruct (q x) eqn:Hq.
  - rewrite (Hpq x Hq). constructor. exact IH.
  - destruct (p x); [constructor|]; exact IH.
Qed.

(** X13. A larger metadata filter selects less: when every entry of one
    filter is an entry of another, the documents selected by the larger
    filter are a subsequence of those selected by the smaller one. *)
Theorem metadata_filter_monotone (self : t) (query : pystr)
    (small large : gmap pystr value) (s : St) :
  small ⊆ large ->
  exists by_small by_large s',
    retrieve_with_metadata_filter self query small s = (Ok by_small, s') /\
    retrieve_with_metadata_filter self query large s = (Ok by_large, s') /\
    sublist by_large by_small.
Proof.
  intros Hsub.
  destruct (retrieve_documents_returns self query (str "similarity") s)
    as (all_docs & s' & Hall).
  eexists _, _, s'. unfold retrieve_with_metadata_filter.
  rewrite !(bind_ok _ _ _ _ _ Hall). unfold ret. rewrite !filter_loop_spec. simpl.
  split; [reflexivity|]. split; [reflexivity|].
  apply filter_implied_sublist. intros doc Hl.
  apply match_items_satisfies. apply match_items_satisfies in Hl.
  intros key v Hk. apply Hl. eapply lookup_weaken; eassumption.
Qed.

End WithWorld.

Import ContextFormat.

Lemma context_parts_strip (i : Z) (documents : list Document) :
  context_parts i
    ((fun doc => mkDocument (strip (page_content doc)) (metadata doc)) <$> documents)
  = context_parts i documents.
Proof.
  revert i. induction documents as [|doc rest IH]; intros i; [reflexivity|].
  rewrite fmap_cons. simpl context_parts. rewrite IH. f_equal.
  unfold context_part, source_or_unknown. simpl page_content. simpl metadata.
  rewrite HelpersFacts.strip_idempotent. reflexivity.
Qed.

Lemma format_sentinel_iff (documents : list Document) :
  format_retrieved_context documents = no_context <-> documents = [].
Proof.
  split; [|intros ->; reflexivity].
  destruct documents as [|doc rest]; [reflexivity|].
  unfold format_retrieved_context. simpl context_parts.
  rewrite TextCleaningFacts.join_cons. unfold context_part, no_context.
  intros Heq. simpl in Heq. discriminate.
Qed.

(** X14. [format_retrieved_context] returns the sentinel "No relevant
    context found." exactly for the empty list, and the context does not
    depend on whitespace around the contents of the documents. *)
Theorem format_retrieved_context_sentinel (documents : list Document) :
  (format_retrieved_context documents = no_context <-> documents = []) /\
  format_retrieved_context
    ((fun doc => mkDocument (strip (page_content doc)) (metadata doc)) <$> documents)
  = format_retrieved_context documents.
Proof.
  split; [apply format_sentinel_iff|].
  destruct documents as [|doc rest]; [reflexivity|].
  unfold format_retrieved_context. rewrite fmap_cons.
  rewrite <- (context_parts_strip 1 (doc :: rest)). rewrite fmap_cons. reflexivity.
Qed.

Import Demo DemoStore.

Lemma deduplicate_documents_idempotent_witness :
  NoDup (content_hash <$> [doc_a; doc_b; doc_c; doc_d]) /\
  _deduplicate_documents [doc_a; doc_b; doc_c; doc_d] = [doc_a; doc_b; doc_c; doc_d].
Proof.
  assert (Hnd : NoDup (content_hash <$> [doc_a; doc_b; doc_c; doc_d])).
  { refine (bool_decide_unpack _ _). vm_compute. exact I. }
  split; [exact Hnd|].
  apply (deduplicate_documents_idempotent [doc_a; doc_b; doc_c; doc_d]), Hnd.
Defined.

Lemma hybrid_prefers_similarity_witness :
  exists s2,
    @_hybrid_retrieval full_world demo_hash demo_retriever (str "harga cpo")
      (@mkSt full_world 0%nat [])
    = (Ok (take (Z.to_nat (RETRIEVAL_K settings))
             (_deduplicate_documents [doc_a; doc_b; doc_c; doc_d])), s2).
Proof.
  pose (s1 := @mkSt full_world 1%nat
                [EvGetRelevantDocuments demo_base_retriever (str "harga cpo")]).
  pose (s2 := @mkSt full_world 2%nat
                [EvGetRelevantDocuments demo_base_retriever (str "harga cpo");
                 EvSimilaritySearchWithScore {| vectorstore_id := 1 |}
                   (str "harga cpo") 4]).
  exists s2.
  apply (proj2 (@hybrid_prefers_similarity full_world demo_hash demo_retriever
                  (str "harga cpo") (@mkSt full_world 0%nat []) s1 s2
                  [doc_a; doc_b; doc_c; doc_d]
                  [(doc_a', 0.25%float); (doc_d, 0.5%float)] eq_refl eq_refl)).
  vm_compute. lia.
Defined.

Lemma retrieve_documents_catches_witness :
  retrieve_documents demo_retriever (str "harga cpo") (str "similarity") s0
  = (Ok [doc_a; doc_b; doc_a'],
     @mkSt demo_world 1%nat
       [EvGetRelevantDocuments demo_base_retriever (str "harga cpo")]).
Proof.
  apply (proj1 (proj2 (retrieve_documents_catches demo_retriever (str "harga cpo")
                         (str "similarity") s0))).
  - discriminate.
  - reflexivity.
Defined.

Lemma init_on_empty_store_witness :
  exists self s',
    __init__ empty_manager s0 = (Ok self, s') /\
    base_retriever self = None /\ world s' = 0%nat.
Proof.
  destruct (init_on_empty_store empty_manager s0 eq_refl)
    as (self & Hinit & Hb & Hc & _).
  exists self. eexists. split; [exact Hinit|]. split; [exact Hb|reflexivity].
Defined.

Lemma init_on_populated_store_witness :
  exists s', __init__ populated_manager s0 = (Ok demo_retriever, s').
Proof.
  destruct (init_on_populated_store populated_manager {| vectorstore_id := 1 |} s0
              eq_refl) as (_ & _ & Hllm).
  destruct (Hllm (mkExn ValueError (str "Did not find openai_api_key")) 1%nat
              eq_refl eq_refl) as (s' & Hinit & _).
  exists s'. exact Hinit.
Defined.

Lemma metadata_filter_monotone_witness :
  exists by_small by_large s',
    retrieve_with_metadata_filter demo_retriever (str "harga cpo") ∅ s0
    = (Ok by_small, s') /\
    retrieve_with_metadata_filter demo_retriever (str "harga cpo")
      {[ str "source" := VStr (str "b.txt") ]} s0 = (Ok by_large, s') /\
    sublist by_large by_small.
Proof.
  apply (metadata_filter_monotone demo_retriever (str "harga cpo") ∅
           {[ str "source" := VStr (str "b.txt") ]} s0).
  apply map_empty_subseteq.
Defined.

End RetrieverMore.


(** ** [RAGChatbot]: further properties *)

Module ChatbotMore.
Import RAGChatbot ChatbotOps ContextFormat.

Lemma history_loop_acc (messages : list Message) (history : list HistoryEntry) :
  history_loop messages history = history ++ history_loop messages [].
Proof.
  revert history. induction messages as [|m rest IH]; intros history; simpl.
  - rewrite app_nil_r. reflexivity.
  - destruct m; rewrite ?(IH (history ++ _)), ?(IH [_]), <- ?app_assoc;
      try reflexivity. apply IH.
Qed.

Lemma history_loop_app (a b : list Message) :
  history_loop (a ++ b) [] = history_loop a [] ++ history_loop b [].
Proof.
  induction a as [|m a IH]; [reflexivity|]. simpl.
  destruct m; simpl; rewrite ?(history_loop_acc _ [_]), ?IH, ?(history_loop_acc a [_]),
    <- ?app_assoc; reflexivity.
Qed.

Lemma history_loop_length (messages : list Message) :
  (length (history_loop messages []) <= length messages)%nat.
Proof.
  induction messages as [|m rest IH]; simpl; [lia|].
  destruct m; rewrite ?(history_loop_acc rest [_]), ?length_app; simpl; lia.
Qed.

Lemma results_loop_spec (documents : list Document) (results : list SearchResult) :
  results_loop documents results
  = results
    ++ ((fun doc => {| result_content := shown_content (page_content doc);
                       result_source := source_or_unknown doc;
                       result_metadata := metadata doc |}) <$> documents).
Proof.
  revert results. induction documents as [|doc rest IH]; intros results; simpl.
  - rewrite app_nil_r. reflexivity.
  - rewrite IH, <- app_assoc. reflexivity.
Qed.

Lemma shown_content_spec (text : pystr) :
  len (shown_content text) <= 203 /\
  (len text <= 200 -> shown_content text = text) /\
  (200 < len text -> shown_content text = take 200 text ++ str "...").
Proof.
  unfold shown_content. destruct (200 <? len text) eqn:Hl.
  - apply Z.ltb_lt in Hl. split; [|split; [lia|reflexivity]].
    rewrite HelpersFacts.len_app. unfold len in *.
    change (slice_to text 200) with (take 200 text). rewrite length_take.
    change (length (str "...")) with 3%nat. lia.
  - apply Z.ltb_ge in Hl. split; [lia|]. split; [reflexivity|lia].
Qed.

Section WithWorld.
Context `{External} `{PyHash}.

(** X15. The history has an entry for each human and AI message, in
    order, and for no other message: it is never longer than the memory,
    a completed turn adds its two entries at the end, and after
    [clear_memory] the history is empty and the turn count is zero.
    Message by message: an empty memory has an empty history; wherever a
    human message stands in the memory, the history is the history of the
    messages before it, then its entry of type human with its content,
    then the history of the messages after it; the same holds for an AI
    message with an entry of type ai; and a message of any other kind
    contributes nothing, the history being that of the memory without
    it. *)
Theorem conversation_history_follows_memory (self : t) (s : St)
    (question reply : pystr) :
  (length (get_conversation_history self) <= length (memory self))%nat /\
  get_conversation_history
    (set_memory self (memory self ++ [HumanMessage question; AIMessage reply]))
  = get_conversation_history self
    ++ [{| entry_type := str "human"; entry_content := question |};
        {| entry_type := str "ai"; entry_content := reply |}] /\
  get_conversation_history (fst (clear_memory self s)) = [] /\
  conversation_length (fst (clear_memory self s)) = 0 /\
  conversation_chain (fst (clear_memory self s)) = conversation_chain self /\
  get_conversation_history (set_memory self []) = [] /\
  (forall before after content,
     get_conversation_history
       (set_memory self (before ++ HumanMessage content :: after))
     = get_conversation_history (set_memory self before)
       ++ {| entry_type := str "human"; entry_content := content |}
          :: get_conversation_history (set_memory self after)) /\
  (forall before after content,
     get_conversation_history
       (set_memory self (before ++ AIMessage content :: after))
     = get_conversation_history (set_memory self before)
       ++ {| entry_type := str "ai"; entry_content := content |}
          :: get_conversation_history (set_memory self after)) /\
  (forall before after content,
     get_conversation_history
       (set_memory self (before ++ SystemMessage content :: after))
     = get_conversation_history (set_memory self before)
       ++ get_conversation_history (set_memory self after)) /\
  (forall before after content,
     get_conversation_history
       (set_memory self (before ++ SystemMessage content :: after))
     = get_conversation_history (set_memory self (before ++ after))).
Proof.
  unfold get_conversation_history. split; [apply history_loop_length|].
  split; [simpl; rewrite history_loop_app; reflexivity|].
  do 4 (split; [reflexivity|]).
  cbn [memory set_memory].
  split; [|split; [|split]].
  - intros before after content. rewrite history_loop_app.
    change (HumanMessage content :: after)
      with ([HumanMessage content] ++ after).
    rewrite (history_loop_app [HumanMessage content] after). reflexivity.
  - intros before after content. rewrite history_loop_app.
    change (AIMessage content :: after) with ([AIMessage content] ++ after).
    rewrite (history_loop_app [AIMessage content] after). reflexivity.
  - intros before after content. rewrite history_loop_app. reflexivity.
  - intros before after content. rewrite !history_loop_app. reflexivity.
Qed.

(** X16. [get_relevant_context] never raises. Its text is the sentinel
    exactly when retrieval returned no document, which is the case when
    there is no base retriever and when the method name is unknown. *)
Theorem get_relevant_context_sentinel (self : t) (query method : pystr) (s : St) :
  exists docs s',
    DocumentRetriever.retrieve_documents (retriever self) query method s = (Ok docs, s') /\
    get_relevant_context self query method s
    = (Ok (format_retrieved_context docs), s') /\
    (format_retrieved_context docs = no_context <-> docs = []) /\
    (DocumentRetriever.base_retriever (retriever self) = None -> docs = []) /\
    (method <> str "similarity" -> method <> str "compression" ->
     method <> str "hybrid" -> docs = []).
Proof.
  destruct (DispatchFacts.retrieve_documents_returns (retriever self) query method s)
    as (docs & s' & Hr).
  exists docs, s'. split; [exact Hr|]. split.
  { unfold get_relevant_context. rewrite (DispatchFacts.bind_ok _ _ _ _ _ Hr).
    reflexivity. }
  split; [apply RetrieverMore.format_sentinel_iff|]. split.
  - intros Hb. unfold DocumentRetriever.retrieve_documents in Hr. rewrite Hb in Hr.
    injection Hr as <- _. reflexivity.
  - intros H1 H2 H3.
    destruct (DocumentRetriever.base_retriever (retriever self)) as [r|] eqn:Hb.
    + assert (Hb' : DocumentRetriever.base_retriever (retriever self) <> None)
        by congruence.
      rewrite (DispatchFacts.retrieve_documents_caught _ _ _ _ _ _ Hb'
                 (DispatchFacts.dispatch_unknown _ _ _ _ H1 H2 H3)) in Hr.
      injection Hr as <- _. reflexivity.
    + unfold DocumentRetriever.retrieve_documents in Hr. rewrite Hb in Hr.
      injection Hr as <- _. reflexivity.
Qed.

(** X17. [search_documents] returns one entry per document found, with
    the metadata of the document and a content of at most 203 characters:
    the content itself up to 200 characters, otherwise its first 200
    characters and three dots. On an empty store it returns nothing. *)
Theorem search_documents_truncates (self : t) (query : pystr) (k : Z) (s : St) :
  (VectorStoreManager.state (vector_store_manager self) = VectorStoreManager.Empty ->
   search_documents self query k s
   = (Ok [], {| world := world s;
                trace := trace s ++ [EvPrint (str "Vector store is empty")] |})) /\
  (forall docs s',
     VectorStoreManager.similarity_search (vector_store_manager self) query (Some k) s
     = (Ok docs, s') ->
     exists results,
       search_documents self query k s = (Ok results, s') /\
       length results = length docs /\
       forall i doc, docs !! i = Some doc ->
         exists r, results !! i = Some r /\
           result_metadata r = metadata doc /\
           result_source r = source_or_unknown doc /\
           len (result_content r) <= 203 /\
           (len (page_content doc) <= 200 -> result_content r = page_content doc) /\
           (200 < len (page_content doc) ->
            result_content r = take 200 (page_content doc) ++ str "...")).
Proof.
  split.
  - intros He. apply VectorStoreManagerFacts.state_empty_iff in He.
    unfold search_documents, VectorStoreManager.similarity_search, bind.
    rewrite He. reflexivity.
  - intros docs s' Hs. eexists. split.
    { unfold search_documents. rewrite (DispatchFacts.bind_ok _ _ _ _ _ Hs).
      unfold ret. rewrite results_loop_spec. reflexivity. }
    simpl. split; [apply length_fmap|].
    intros i doc Hi. eexists. split.
    { rewrite list_lookup_fmap, Hi. reflexivity. }
    simpl. split; [reflexivity|]. split; [reflexivity|]. apply shown_content_spec.
Qed.

(** X18. With a chain, [chat] calls it once and never raises. An exception
    of the chain, or a response without answer, gives the apology with the
    message of the error and no sources; otherwise the answer of the chain
    is returned, and every source listed is the [source] of one of the
    source documents of the response. The memory is left as the chain
    wrote it. *)
Theorem chat_with_chain (self : t) (message retrieval_method : pystr) (s : St)
    (chain : Chain) (response : outcome ChainResponse) (messages : list Message)
    (w : World) :
  conversation_chain self = Some chain ->
  chain_call chain message (memory self) (world s) = (response, messages, w) ->
  exists result s',
    chat self message retrieval_method s = (result, set_memory self messages, s') /\
    world s' = w /\
    List.filter (fun ev => match ev with EvChainCall _ _ => true | _ => false end)
      (trace s')
    = List.filter (fun ev => match ev with EvChainCall _ _ => true | _ => false end)
        (trace s) ++ [EvChainCall chain message] /\
    (forall e, response = Raise e ->
       answer result = str "Maaf, terjadi kesalahan: " ++ exn_str e /\
       source_documents result = [] /\ sources result = []) /\
    (forall r, response = Ok r -> response_answer r = None ->
       answer result = str "Maaf, terjadi kesalahan: 'answer'" /\
       source_documents result = [] /\ sources result = []) /\
    (forall r a, response = Ok r -> response_answer r = Some a ->
       answer result = a /\
       source_documents result = default [] (response_source_documents r) /\
       forall v, v ∈ sources result ->
         exists doc, doc ∈ source_documents result /\
                     metadata doc !! str "source" = Some v).
Proof.
  intros Hc Hcall. unfold chat. rewrite Hc, Hcall.
  destruct response as [r|e].
  - destruct (response_answer r) as [a|] eqn:Ha.
    + eexists _, _. split; [reflexivity|]. simpl. split; [reflexivity|].
      split; [rewrite List.filter_app; reflexivity|].
      split; [discriminate|]. split; [intros r' Hr; injection Hr as <-; congruence|].
      intros r' a' Hr Ha'. injection Hr as <-. rewrite Ha in Ha'. injection Ha' as <-.
      split; [reflexivity|].
      destruct (response_source_documents r) as [docs|]; simpl.
      * split; [reflexivity|]. intros v Hv.
        destruct (RetrieverMore.sources_loop_spec docs []) as (H1 & _).
        destruct (H1 v Hv) as [Hn|Hd]; [inversion Hn|exact Hd].
      * split; [reflexivity|]. intros v Hv. inversion Hv.
    + eexists _, _. split; [reflexivity|]. simpl. split; [reflexivity|].
      split; [rewrite !List.filter_app, app_nil_r; reflexivity|].
      split; [discriminate|]. split; [intros r' _ _; repeat split|].
      intros r' a' Hr Ha'. injection Hr as <-. congruence.
  - eexists _, _. split; [reflexivity|]. simpl. split; [reflexivity|].
    split; [rewrite !List.filter_app, app_nil_r; reflexivity|].
    split; [intros e' He; injection He as <-; repeat split|].
    split; discriminate.
Qed.

End WithWorld.

Import Demo DemoStore.

Lemma search_documents_truncates_witness :
  exists results s',
    search_documents ready_chatbot (str "harga cpo") 2 s0 = (Ok results, s') /\
    length results = 2%nat.
Proof.
  destruct (proj2 (search_documents_truncates ready_chatbot (str "harga cpo") 2 s0)
              [doc_a; doc_b]
              (@mkSt demo_world 1%nat
                 [EvSimilaritySearch {| vectorstore_id := 1 |} (str "harga cpo") 2])
              eq_refl) as (results & Hs & Hl & _).
  eexists _, _. split; [exact Hs|exact Hl].
Defined.

Lemma chat_with_chain_witness :
  exists result s',
    chat ready_chatbot (str "berapa harga cpo") (str "similarity") s0
    = (result,
       set_memory ready_chatbot
         [HumanMessage (str "berapa harga cpo"); AIMessage (str "42")], s') /\
    answer result = str "42".
Proof.
  destruct (chat_with_chain ready_chatbot (str "berapa harga cpo") (str "similarity") s0
              {| chain_llm := {| llm_id := 7 |}; chain_retriever := demo_base_retriever |}
              (Ok {| response_answer := Some (str "42");
                     response_source_documents := Some [doc_a; doc_b] |})
              [HumanMessage (str "berapa harga cpo"); AIMessage (str "42")] 1%nat
              eq_refl eq_refl)
    as (result & s' & Hchat & _ & _ & _ & _ & Hok).
  exists result, s'. split; [exact Hchat|].
  apply (Hok _ (str "42") eq_refl eq_refl).
Defined.

End ChatbotMore.


(** ** [VectorStoreManager]: the methods that change the store *)

Module VectorStoreOpsFacts.
Import VectorStoreManager VectorStoreOps.

Lemma is_chroma_true : is_chroma = true.
Proof. reflexivity. Qed.

Lemma set_vector_store_same (self : t) :
  set_vector_store self (vector_store self) = self.
Proof. destruct self. reflexivity. Qed.

Section WithBackend.
Context `{StoreBackend}.

(** X19. [add_documents] with an empty list changes neither the manager
    nor the world. With any list it never loses an existing store, and
    when it returns normally for a non-empty list the manager is
    populated. *)
Theorem add_documents_populates (documents : list Document) (self self' : t)
    (s s' : St) (r : outcome unit) :
  add_documents documents self s = (r, self', s') ->
  (documents = [] -> r = Ok tt /\ self' = self /\ world s' = world s) /\
  (forall vs, vector_store self = Some vs -> self' = self) /\
  (r = Ok tt -> documents <> [] -> state self' = Populated) /\
  embeddings self' = embeddings self.
Proof.
  intros Hadd. destruct documents as [|doc rest].
  - injection Hadd as <- <- <-. repeat split; congruence.
  - unfold add_documents, then_, obind, get_self in Hadd.
    destruct (vector_store self) as [vs|] eqn:Hvs.
    + unfold extend_store in Hadd. rewrite is_chroma_true in Hadd.
      unfold then_, obind, ext, oprint in Hadd.
      destruct (store_add_documents vs (doc :: rest) (world s)) as [[[]|e1] w1];
        simpl in Hadd.
      * destruct (store_persist vs w1) as [[[]|e2] w2]; simpl in Hadd;
          injection Hadd as <- <- <-; repeat split; try congruence;
          intros; unfold state; rewrite Hvs; reflexivity.
      * injection Hadd as <- <- <-. repeat split; congruence.
    + unfold create_store in Hadd. rewrite is_chroma_true in Hadd.
      unfold then_, obind, ext, oprint, assign_vector_store in Hadd.
      destruct (chroma_from_documents (doc :: rest) (world s)) as [[vs|e1] w1];
        simpl in Hadd.
      * destruct (store_persist vs w1) as [[[]|e2] w2]; simpl in Hadd;
          injection Hadd as <- <- <-; repeat split; congruence.
      * injection Hadd as <- <- <-. repeat split; congruence.
Qed.

(** X20. When [reset_vector_store] returns normally the manager is empty:
    a search then finds nothing and [get_retriever] raises. On an empty
    manager the reset touches nothing; if deleting the collection fails,
    the manager keeps its store. *)
Theorem reset_vector_store_empties (self self' : t) (s s' : St) (r : outcome unit) :
  reset_vector_store self s = (r, self', s') ->
  (r = Ok tt ->
   state self' = Empty /\
   (forall query k s2,
      similarity_search self' query k s2
      = (Ok [], {| world := world s2;
                   trace := trace s2 ++ [EvPrint (str "Vector store is empty")] |})) /\
   (forall kwargs s2,
      get_retriever self' kwargs s2
      = (Raise (mkExn ValueError (str "Vector store is empty")), s2))) /\
  (forall e, r = Raise e -> self' = self) /\
  (state self = Empty -> r = Ok tt /\ world s' = world s).
Proof.
  unfold reset_vector_store, then_, obind, get_self. rewrite is_chroma_true.
  destruct (vector_store self) as [vs|] eqn:Hvs.
  - unfold ext, assign_vector_store, oprint.
    destruct (store_delete_collection vs (world s)) as [[[]|e1] w1]; simpl;
      intros Hr; injection Hr as <- <- <-.
    + split; [|split; [discriminate|unfold state; rewrite Hvs; discriminate]].
      intros _. repeat split.
    + split; [discriminate|]. split; [reflexivity|].
      unfold state. rewrite Hvs. discriminate.
  - unfold oret, assign_vector_store, oprint. simpl.
    intros Hr. injection Hr as <- <- <-.
    split; [|split; [discriminate|intros _; split; reflexivity]].
    intros _. repeat split.
Qed.

(** X21. [delete_documents] never changes the manager: after deleting
    everything it still holds its store. On an empty manager it only
    prints; without ids, or with an empty list of ids, it deletes the
    whole collection and persists. *)
Theorem delete_documents_keeps_store (ids : option (list pystr)) (self self' : t)
    (s s' : St) (r : outcome unit) :
  delete_documents ids self s = (r, self', s') ->
  self' = self /\
  (state self = Empty -> r = Ok tt /\ world s' = world s) /\
  (forall vs w1 r2 w2,
     vector_store self = Some vs ->
     ids = None \/ ids = Some [] ->
     store_delete_collection vs (world s) = (Ok tt, w1) ->
     store_persist vs w1 = (r2, w2) ->
     r = r2 /\ world s' = w2 /\ trace s' = trace s).
Proof.
  unfold delete_documents, then_, obind, get_self. rewrite is_chroma_true.
  destruct (vector_store self) as [vs|] eqn:Hvs.
  - unfold ext. intros Hd.
    assert (Hstate : state self = Empty -> r = Ok tt /\ world s' = world s).
    { unfold state. rewrite Hvs. discriminate. }
    destruct ids as [[|id more]|].
    + destruct (store_delete_collection vs (world s)) as [[[]|e1] w1] eqn:Hdel;
        simpl in Hd.
      * destruct (store_persist vs w1) as [r2 w2] eqn:Hp. simpl in Hd.
        injection Hd as <- <- <-. split; [reflexivity|]. split; [exact Hstate|].
        intros vs' w1' r2' w2' Hvs' _ Hdel' Hp'. injection Hvs' as <-.
        rewrite Hdel in Hdel'. injection Hdel' as <-.
        rewrite Hp in Hp'. injection Hp' as <- <-.
        repeat split.
      * injection Hd as <- <- <-. split; [reflexivity|]. split; [exact Hstate|].
        intros vs' w1' r2' w2' Hvs' _ Hdel'. injection Hvs' as <-.
        rewrite Hdel in Hdel'. discriminate.
    + destruct (store_delete vs (id :: more) (world s)) as [[[]|e1] w1]; simpl in Hd.
      * destruct (store_persist vs w1) as [r2 w2]. simpl in Hd.
        injection Hd as <- <- <-. split; [reflexivity|]. split; [exact Hstate|].
        intros vs' w1' r2' w2' _ [Hi|Hi]; discriminate.
      * injection Hd as <- <- <-. split; [reflexivity|]. split; [exact Hstate|].
        intros vs' w1' r2' w2' _ [Hi|Hi]; discriminate.
    + destruct (store_delete_collection vs (world s)) as [[[]|e1] w1] eqn:Hdel;
        simpl in Hd.
      * destruct (store_persist vs w1) as [r2 w2] eqn:Hp. simpl in Hd.
        injection Hd as <- <- <-. split; [reflexivity|]. split; [exact Hstate|].
        intros vs' w1' r2' w2' Hvs' _ Hdel' Hp'. injection Hvs' as <-.
        rewrite Hdel in Hdel'. injection Hdel' as <-.
        rewrite Hp in Hp'. injection Hp' as <- <-.
        repeat split.
      * injection Hd as <- <- <-. split; [reflexivity|]. split; [exact Hstate|].
        intros vs' w1' r2' w2' Hvs' _ Hdel'. injection Hvs' as <-.
        rewrite Hdel in Hdel'. discriminate.
  - unfold oprint. intros Hd. injection Hd as <- <- <-.
    split; [reflexivity|]. split; [intros _; split; reflexivity|].
    intros vs w1 r2 w2 Hv. discriminate.
Qed.

End WithBackend.

Import Demo DemoStore.

Lemma add_documents_populates_witness :
  exists self' s',
    add_documents [doc_a; doc_b] empty_manager s0 = (Ok tt, self', s') /\
    state self' = Populated.
Proof.
  pose (self' := set_vector_store empty_manager (Some {| vectorstore_id := 1 |})).
  pose (s' := @mkSt demo_world 2%nat
                [EvPrint (str "Added 2 documents to vector store")]).
  assert (Hadd : add_documents [doc_a; doc_b] empty_manager s0 = (Ok tt, self', s'))
    by reflexivity.
  exists self', s'. split; [exact Hadd|].
  apply (add_documents_populates [doc_a; doc_b] empty_manager self' s0 s' (Ok tt)
           Hadd); [reflexivity|discriminate].
Defined.

Lemma reset_vector_store_empties_witness :
  exists self' s',
    reset_vector_store populated_manager s0 = (Ok tt, self', s') /\
    state self' = Empty.
Proof.
  pose (self' := set_vector_store populated_manager None).
  pose (s' := @mkSt demo_world 1%nat [EvPrint (str "Vector store reset")]).
  assert (Hreset : reset_vector_store populated_manager s0 = (Ok tt, self', s'))
    by reflexivity.
  exists self', s'. split; [exact Hreset|].
  apply (reset_vector_store_empties populated_manager self' s0 s' (Ok tt) Hreset).
  reflexivity.
Defined.

Lemma delete_documents_keeps_store_witness :
  exists s',
    delete_documents None populated_manager s0 = (Ok tt, populated_manager, s') /\
    world s' = 2%nat.
Proof.
  pose (s' := @mkSt demo_world 2%nat []).
  assert (Hdel : delete_documents None populated_manager s0
                 = (Ok tt, populated_manager, s')) by reflexivity.
  exists s'. split; [exact Hdel|].
  apply (proj2 (proj2 (delete_documents_keeps_store None populated_manager
                         populated_manager s0 s' (Ok tt) Hdel))
           {| vectorstore_id := 1 |} 1%nat (Ok tt) 2%nat eq_refl (or_introl eq_refl)
           eq_refl eq_refl).
Defined.

End VectorStoreOpsFacts.


(** ** [RAGChatbot.add_documents_to_knowledge_base] *)

Module KnowledgeBaseFacts.
Import RAGChatbot KnowledgeBase ChatbotOps ContextFormat.

Lemma with_manager_same (self : t) :
  shares_manager self -> with_manager self (vector_store_manager self) = self.
Proof.
  unfold shares_manager, with_manager. destruct self as [l m r mem c].
  destruct r as [rm rb rc]. simpl. intros ->. reflexivity.
Qed.

Section WithBackend.
Context `{VectorStoreOps.StoreBackend} `{PyHash}.

(** X22. Adding an empty list of documents to a chatbot that is not ready
    reports success but changes nothing but the printed lines: the chatbot
    is the same, the world is the same, and [chat] still gives the "system
    not ready" answer. *)
Theorem add_nothing_stays_unready (self : t) (s : St) :
  VectorStoreManager.state (vector_store_manager self) = VectorStoreManager.Empty ->
  conversation_chain self = None ->
  shares_manager self ->
  exists s',
    add_documents_to_knowledge_base self [] s = (Ok tt, self, s') /\
    world s' = world s /\
    trace s'
    = trace s
      ++ [EvPrint (str "No documents to add");
          EvPrint (str "Warning: Could not setup conversation chain - "
                   ++ str "Vector store is empty");
          EvPrint (str "Knowledge base updated successfully")] /\
    forall message method s2,
      answer (fst (fst (chat self message method s2))) = not_ready_answer.
Proof.
  intros He Hc Hshare. eexists. split.
  - unfold add_documents_to_knowledge_base. simpl.
    rewrite (with_manager_same _ Hshare).
    rewrite (RAGChatbotFacts.setup_conversation_chain_empty_store self _ He).
    reflexivity.
  - simpl. split; [reflexivity|]. split.
    + rewrite <- !app_assoc. reflexivity.
    + intros message method s2. unfold chat. rewrite Hc. reflexivity.
Qed.

(** X23. Adding documents to a chatbot that started on an empty store,
    when the index and the chain can be built, makes [chat] ready: the
    store is populated and the chain is set. The retrievers of the
    [DocumentRetriever] are not rebuilt, so [get_relevant_context] still
    finds no context. *)
Theorem add_documents_readies_chat_only (self : t) (doc : Document)
    (more : list Document) (s : St) (vs : VectorStore) (chain : Chain)
    (w1 w2 w3 : World) :
  VectorStoreManager.vector_store (vector_store_manager self) = None ->
  DocumentRetriever.base_retriever (retriever self) = None ->
  VectorStoreOps.chroma_from_documents (doc :: more) (world s) = (Ok vs, w1) ->
  VectorStoreOps.store_persist vs w1 = (Ok tt, w2) ->
  chain_from_llm (llm self)
    (as_retriever vs {[ str "k" := VInt (RETRIEVAL_K settings) ]}) w2
  = (Ok chain, w3) ->
  exists self' s',
    add_documents_to_knowledge_base self (doc :: more) s = (Ok tt, self', s') /\
    world s' = w3 /\
    VectorStoreManager.vector_store (vector_store_manager self') = Some vs /\
    conversation_chain self' = Some chain /\
    memory self' = memory self /\
    DocumentRetriever.base_retriever (retriever self') = None /\
    forall query method s2,
      get_relevant_context self' query method s2
      = (Ok no_context,
         {| world := world s2;
            trace := trace s2 ++ [EvPrint (str "No retriever available")] |}).
Proof.
  intros Hvs Hb Hcreate Hpersist Hchain.
  unfold add_documents_to_knowledge_base, VectorStoreOps.add_documents,
    VectorStoreOps.then_, VectorStoreOps.obind, VectorStoreOps.get_self.
  rewrite Hvs. unfold VectorStoreOps.create_store.
  rewrite VectorStoreOpsFacts.is_chroma_true.
  unfold VectorStoreOps.then_, VectorStoreOps.obind, VectorStoreOps.ext,
    VectorStoreOps.assign_vector_store, VectorStoreOps.oprint.
  rewrite Hcreate. simpl. rewrite Hpersist. simpl.
  unfold _setup_conversation_chain, try_except_ValueError, bind,
    VectorStoreManager.get_retriever, call, ret. simpl.
  simpl in Hchain. rewrite Hchain. simpl.
  eexists _, _. split; [reflexivity|]. simpl.
  repeat (split; [first [reflexivity | exact Hb]|]).
  intros query method s2.
  unfold get_relevant_context, DocumentRetriever.retrieve_documents, bind. simpl.
  rewrite Hb. reflexivity.
Qed.

End WithBackend.

Import Demo DemoStore.

Lemma add_nothing_stays_unready_witness :
  exists s',
    add_documents_to_knowledge_base unready_chatbot [] s0
    = (Ok tt, unready_chatbot, s') /\ world s' = 0%nat.
Proof.
  destruct (add_nothing_stays_unready unready_chatbot s0 eq_refl eq_refl eq_refl)
    as (s' & Hadd & Hw & _).
  exists s'. split; [exact Hadd|exact Hw].
Defined.

Lemma add_documents_readies_chat_only_witness :
  exists self' s',
    add_documents_to_knowledge_base unready_chatbot [doc_a; doc_b] s0
    = (Ok tt, self', s') /\
    conversation_chain self'
    = Some {| chain_llm := {| llm_id := 7 |}; chain_retriever := demo_base_retriever |} /\
    DocumentRetriever.base_retriever (retriever self') = None.
Proof.
  assert (Hcreate : VectorStoreOps.chroma_from_documents [doc_a; doc_b] (world s0)
                    = (Ok {| vectorstore_id := 1 |}, 1%nat)) by reflexivity.
  assert (Hpersist : VectorStoreOps.store_persist {| vectorstore_id := 1 |} 1%nat
                     = (Ok tt, 2%nat)) by reflexivity.
  assert (Hchain : chain_from_llm (RAGChatbot.llm unready_chatbot)
                     (as_retriever {| vectorstore_id := 1 |}
                        {[ str "k" := VInt (RETRIEVAL_K settings) ]}) 2%nat
                   = (Ok {| chain_llm := {| llm_id := 7 |};
                            chain_retriever := demo_base_retriever |}, 3%nat))
    by reflexivity.
  destruct (add_documents_readies_chat_only unready_chatbot doc_a [doc_b] s0
              {| vectorstore_id := 1 |}
              {| chain_llm := {| llm_id := 7 |}; chain_retriever := demo_base_retriever |}
              1%nat 2%nat 3%nat eq_refl eq_refl Hcreate Hpersist Hchain)
    as (self' & s' & Hadd & _ & _ & Hc & _ & Hb & _).
  exists self', s'. split; [exact Hadd|]. split; [exact Hc|exact Hb].
Defined.

End KnowledgeBaseFacts.


(** ** Searching with a default [k]; the loop of [process_documents] *)

Module SearchAndChunksMore.
Import TextProcessor TextProcessorFacts.

Section WithWorld.
Context `{External}.


End WithWorld.

Lemma add_chunk_metadata_allocated (i : Z) (chunks : list DocumentObject)
    (heap : gmap loc (gmap pystr value)) (l : loc) :
  is_Some (heap !! l) -> is_Some (add_chunk_metadata i chunks heap !! l).
Proof.
  revert i heap. induction chunks as [|c rest IH]; intros i heap Hl; [exact Hl|].
  simpl. apply IH. rewrite lookup_alter. destruct (decide (metadata_ref c = l));
    [|exact Hl].
  subst l. destruct Hl as [d Hd]. rewrite Hd. eexists. reflexivity.
Qed.

(** The last chunk that refers to a [dict] decides what is read from it. *)
Lemma add_chunk_metadata_last (i : Z) (chunks : list DocumentObject)
    (heap : gmap loc (gmap pystr value)) (j : nat) (chunk : DocumentObject) :
  chunks !! j = Some chunk ->
  (forall j' later, (j < j')%nat -> chunks !! j' = Some later ->
     metadata_ref later <> metadata_ref chunk) ->
  is_Some (heap !! metadata_ref chunk) ->
  exists before,
    add_chunk_metadata i chunks heap !! metadata_ref chunk
    = Some (dict_update before (chunk_fields (i + Z.of_nat j) chunk)).
Proof.
  revert i heap j. induction chunks as [|c rest IH]; intros i heap j Hj Hlast Halloc.
  - destruct j; discriminate.
  - destruct j as [|j]; simpl in Hj.
    + injection Hj as ->. simpl.
      rewrite add_chunk_metadata_other.
      * rewrite lookup_alter_eq. destruct Halloc as [d Hd]. exists d.
        rewrite Hd. replace (i + Z.of_nat 0) with i by lia. reflexivity.
      * intros Hin. apply list_elem_of_fmap in Hin as (later & Hr & Hin).
        apply list_elem_of_lookup in Hin as [j' Hj'].
        apply (Hlast (S j') later); [lia|exact Hj'|]. symmetry. exact Hr.
    + simpl.
      destruct (IH (i + 1) (alter (fun d => dict_update d (chunk_fields i c))
                              (metadata_ref c) heap) j Hj) as [before Hb].
      * intros j' later Hlt Hj'. apply (Hlast (S j') later); [lia|exact Hj'].
      * rewrite lookup_alter.
        destruct (decide (metadata_ref c = metadata_ref chunk)) as [Heq|Hne];
          [|exact Halloc].
        destruct Halloc as [d Hd]. rewrite Heq, Hd. eexists. reflexivity.
      * exists before. rewrite Hb.
        replace (i + 1 + Z.of_nat j) with (i + Z.of_nat (S j)) by lia. reflexivity.
Qed.

Section WithSplitter.
Context `{TextSplitter}.

(** X25. Whatever the splitter returns, after [process_documents] a
    metadata [dict] carries the [chunk_id] and [chunk_size] of the last
    chunk of the sequence that refers to it, and the [dict] of every
    object that is not a chunk is untouched; the two lines printed give
    the numbers of documents and of chunks. *)
Theorem process_documents_last_write (documents chunks : list DocumentObject)
    (heap heap0 : gmap loc (gmap pystr value)) :
  split_documents documents heap = (chunks, heap0) ->
  exists heap1,
    process_documents documents heap
    = (chunks, heap1,
       [str "Processing " ++ str_of_int (Z.of_nat (length documents))
        ++ str " documents...";
        str "Created " ++ str_of_int (Z.of_nat (length chunks)) ++ str " chunks"]) /\
    (forall l, l ∉ metadata_ref <$> chunks -> heap1 !! l = heap0 !! l) /\
    (forall j chunk,
       chunks !! j = Some chunk ->
       (forall j' later, (j < j')%nat -> chunks !! j' = Some later ->
          metadata_ref later <> metadata_ref chunk) ->
       is_Some (heap0 !! metadata_ref chunk) ->
       exists md,
         metadata_of heap1 chunk = Some md /\
         md !! str "chunk_id" = Some (VInt (Z.of_nat j)) /\
         md !! str "chunk_size" = Some (VInt (len (content chunk)))).
Proof.
  intros Hsplit. unfold process_documents. rewrite Hsplit.
  eexists. split; [reflexivity|]. split.
  - intros l Hl. apply add_chunk_metadata_other, Hl.
  - intros j chunk Hj Hlast Halloc.
    destruct (add_chunk_metadata_last 0 chunks heap0 j chunk Hj Hlast Halloc)
      as [before Hb].
    exists (dict_update before (chunk_fields (Z.of_nat j) chunk)).
    split; [exact Hb|].
    destruct (dict_update_chunk_fields before (Z.of_nat j) chunk) as (Hid & Hsz & _).
    split; assumption.
Qed.

End WithSplitter.

Import Demo.

Lemma process_documents_last_write_witness :
  exists heap1 out,
    process_documents demo_documents demo_heap
    = (fst (halves demo_documents 100 demo_heap), heap1, out) /\
    heap1 !! 0%nat = Some {[ str "source" := VStr (str "test1.txt") ]}.
Proof.
  assert (Hsplit : split_documents demo_documents demo_heap
                   = (fst (halves demo_documents 100 demo_heap),
                      snd (halves demo_documents 100 demo_heap))) by reflexivity.
  destruct (process_documents_last_write demo_documents
              (fst (halves demo_documents 100 demo_heap)) demo_heap
              (snd (halves demo_documents 100 demo_heap)) Hsplit)
    as (heap1 & Hp & Hother & _).
  exists heap1. eexists. split; [exact Hp|].
  rewrite Hother; [reflexivity|].
  refine (bool_decide_unpack _ _). vm_compute. exact I.
Defined.

End SearchAndChunksMore.
